(** * Capsule loading: a shallow embedding of [vcap/loading/capsule_loading.py]

    The development has the parts of the source: the error types, the
    dynamically typed values a capsule object is made of, the version gate,
    the structural validation in [_validate_capsule], the import-resolver
    stack and the orchestration in [load_capsule_from_bytes].

    Library calls whose code is not part of the module (hashing, decryption,
    zip parsing, text decoding, the INI parser, the evaluation of the
    capsule's own code) are collected in the [Runtime] interface. What the
    standard library does at a line of the module and the outcome of the
    load depends on is written out: [int] with its limit of digits, the
    lookup in the parsed [meta.conf] with its fall back to [DEFAULT] and
    its interpolation of [%], and [except Exception], which lets through
    what derives from [BaseException] only. *)

From Stdlib Require Import ZArith Ascii String List Bool Lia DecimalString.
From Stdlib Require Import DecimalZ.
From stdpp Require Import base option list strings gmap.
Import ListNotations.

Set Warnings "-register-all".
Set Default Proof Using "Type".

Local Open Scope string_scope.
Local Open Scope list_scope.
Local Open Scope Z_scope.

(** ** Bytes, paths and Python values *)

Definition bytes := list Byte.byte.

(** [pathlib.Path], kept as its sequence of components. *)
Definition Path := list string.

Definition path_join (p : Path) (name : string) : Path := p ++ [name].

(** A class object: an identity tag and its direct bases ([__bases__]). *)
Inductive pyclass : Type :=
| Class (cls_id : string) (bases : list pyclass).

Definition cls_id (c : pyclass) : string :=
  match c with Class i _ => i end.

Definition cls_bases (c : pyclass) : list pyclass :=
  match c with Class _ bs => bs end.

(** Identity of class objects ([is]); classes are told apart by their tag. *)
Definition class_is (c d : pyclass) : bool := String.eqb (cls_id c) (cls_id d).

(** The values that validation inspects. A function value stands for a plain
    function, a lambda or a bound method: all three answer [__code__] with
    the code object of the underlying function, whose [co_varnames] start
    with the [co_argcount] declared parameters (a method's [self] among
    them). *)
Inductive pyval : Type :=
| PyNone
| PyBool (b : bool)
| PyInt (z : Z)
| PyStr (s : string)
| PyList (xs : list pyval)
| PyDict (items : list (string * pyval))
| PyCode (co_varnames : list string) (co_argcount : nat)
| PyFunction (co_varnames : list string) (co_argcount : nat)
| PyClass (c : pyclass)
| PyObject (cls : pyclass) (attrs : list (string * pyval)).

(** ** Exceptions

    [OtherException] stands for the classes deriving from [Exception] that
    are not named here, and [NonException] for those deriving from
    [BaseException] only ([SystemExit], [KeyboardInterrupt],
    [GeneratorExit]), which [except Exception] does not catch. *)

Inductive exn : Type :=
| InvalidCapsuleError (capsule_name : pyval) (message : string)
| IncompatibleCapsuleError (capsule_name : pyval) (message : string)
| KeyError (key : string)
| AttributeError (message : string)
| IndexError (message : string)
| TypeError (message : string)
| ValueError (message : string)
| UnboundLocalError (variable : string)
| OtherException (type_name : string) (message : string)
| NonException (type_name : string) (message : string).

(** [str(e)], as the f-strings of the module render a caught exception. *)
Definition exn_str (e : exn) : string :=
  match e with
  | InvalidCapsuleError _ m => m
  | IncompatibleCapsuleError _ m => m
  | KeyError k => "'" +:+ k +:+ "'"
  | AttributeError m => m
  | IndexError m => m
  | TypeError m => m
  | ValueError m => m
  | UnboundLocalError v =>
      "local variable '" +:+ v +:+ "' referenced before assignment"
  | OtherException _ m => m
  | NonException _ m => m
  end.

Definition is_InvalidCapsuleError (e : exn) : bool :=
  match e with InvalidCapsuleError _ _ => true | _ => false end.

Definition is_IncompatibleCapsuleError (e : exn) : bool :=
  match e with IncompatibleCapsuleError _ _ => true | _ => false end.

Definition is_AttributeError (e : exn) : bool :=
  match e with AttributeError _ => true | _ => false end.

(** [isinstance(e, Exception)]. *)
Definition is_Exception (e : exn) : bool :=
  match e with NonException _ _ => false | _ => true end.

(** The two kinds of error the module reports on purpose. *)
Definition is_reported_error (e : exn) : bool :=
  is_InvalidCapsuleError e || is_IncompatibleCapsuleError e.

(** ** Computations that may raise *)

Inductive result (A : Type) : Type :=
| Ok (a : A)
| Raise (e : exn).
Arguments Ok {A} a.
Arguments Raise {A} e.

Definition rbind {A B} (r : result A) (k : A -> result B) : result B :=
  match r with
  | Ok a => k a
  | Raise e => Raise e
  end.

Notation "'let*' x ':=' c 'in' k" := (rbind c (fun x => k))
  (at level 10, x name, c at level 100, k at level 200,
   format "'[v' 'let*'  x  ':='  c  'in' '/' k ']'").
Notation "c '>>' k" := (rbind c (fun _ => k))
  (at level 100, k at level 200, right associativity).

(** ** The version gate *)

Definition MAJOR_COMPATIBLE_VERSION : Z := 0.
Definition MINOR_COMPATIBLE_VERSION : Z := 2.

(** The character class [[0-9]]. *)
Definition is_digit (c : ascii) : bool :=
  (48 <=? nat_of_ascii c)%nat && (nat_of_ascii c <=? 57)%nat.

Fixpoint string_forall (p : ascii -> bool) (s : string) : bool :=
  match s with
  | EmptyString => true
  | String c s' => p c && string_forall p s'
  end.

Definition nonempty (s : string) : bool :=
  match s with EmptyString => false | String _ _ => true end.

(** Longest prefix of [s] made of characters in [p], and what follows it:
    the greedy run of a [+] in the pattern. *)
Fixpoint span (p : ascii -> bool) (s : string) : string * string :=
  match s with
  | EmptyString => (EmptyString, EmptyString)
  | String c s' =>
      if p c then let '(a, b) := span p s' in (String c a, b)
      else (EmptyString, s)
  end.

(** [MAJOR_MINOR_SEMVER_PATTERN.fullmatch]: the two groups of
    [([0-9]+)\.([0-9]+)] when the whole string matches. *)
Definition semver_fullmatch (s : string) : option (string * string) :=
  let '(g1, rest) := span is_digit s in
  match rest with
  | String "."%char g2 =>
      if nonempty g1 && nonempty g2 && string_forall is_digit g2
      then Some (g1, g2) else None
  | _ => None
  end.

Definition digit_value (c : ascii) : Z := Z.of_nat (nat_of_ascii c) - 48.

Fixpoint int_digits (acc : Z) (s : string) : option Z :=
  match s with
  | EmptyString => Some acc
  | String c s' =>
      if is_digit c then int_digits (10 * acc + digit_value c) s' else None
  end.

(** [sys.get_int_max_str_digits()] as the interpreter starts: the longest
    decimal text [int] converts. *)
Definition int_max_str_digits : nat := 4300.

(** [int(s)] on text made of ASCII digits; [None] stands for [ValueError],
    which is also what text of more than [int_max_str_digits] characters
    gets, leading zeros counted. *)
Definition py_int (s : string) : option Z :=
  if nonempty s && (String.length s <=? int_max_str_digits)%nat
  then int_digits 0 s else None.

Definition repr_Z (z : Z) : string :=
  NilZero.string_of_int (Z.to_int z).

(** Lines 78-106 of [load_capsule_from_bytes]. The handler of [ValueError]
    formats [major] and [minor], which are not bound when the conversion
    failed, so it surfaces as [UnboundLocalError]. *)
Definition check_compatibility (capsule_name : string)
    (compatibility_version : string) : result (Z * Z) :=
  match semver_fullmatch compatibility_version with
  | None =>
      Raise (InvalidCapsuleError (PyStr capsule_name)
        ("Invalid API compatibility version format '"
         +:+ compatibility_version
         +:+ "'. Version must be in the format '[major].[minor]'."))
  | Some (g1, g2) =>
      match py_int g1, py_int g2 with
      | Some major, Some minor =>
          if negb (major =? MAJOR_COMPATIBLE_VERSION) then
            Raise (IncompatibleCapsuleError (PyStr capsule_name)
              ("The capsule is not compatible with this software. The "
               +:+ "capsule's OpenVisionCapsules required major version is "
               +:+ repr_Z major
               +:+ " but this software uses OpenVisionCapsules "
               +:+ repr_Z MAJOR_COMPATIBLE_VERSION +:+ "."
               +:+ repr_Z MINOR_COMPATIBLE_VERSION +:+ "."))
          else if minor >? MINOR_COMPATIBLE_VERSION then
            Raise (IncompatibleCapsuleError (PyStr capsule_name)
              ("The capsule requires a version of OpenVisionCapsules "
               +:+ "that is too new for this software. The capsule requires at "
               +:+ "least version " +:+ repr_Z major +:+ "." +:+ repr_Z minor
               +:+ " but this software uses OpenVisionCapsules "
               +:+ repr_Z MAJOR_COMPATIBLE_VERSION +:+ "."
               +:+ repr_Z MINOR_COMPATIBLE_VERSION +:+ "."))
          else Ok (major, minor)
      | _, _ => Raise (UnboundLocalError "major")
      end
  end.

(** ** Inspecting Python values *)

Definition object_class : pyclass := Class "object" [].

(** The three classes of the [vcap] package the validation refers to. Only
    their identity matters here. *)
Definition NodeDescription : pyclass := Class "NodeDescription" [object_class].
Definition BaseBackend : pyclass := Class "BaseBackend" [object_class].
Definition BaseStreamState : pyclass := Class "BaseStreamState" [object_class].

(** [issubclass]: the class itself or, transitively, one of its bases. *)
Fixpoint issubclass (c target : pyclass) : bool :=
  match c with
  | Class i bs =>
      String.eqb i (cls_id target)
      || (fix any (l : list pyclass) : bool :=
            match l with
            | [] => false
            | b :: l' => issubclass b target || any l'
            end) bs
  end.

Definition type_name (v : pyval) : string :=
  match v with
  | PyNone => "NoneType"
  | PyBool _ => "bool"
  | PyInt _ => "int"
  | PyStr _ => "str"
  | PyList _ => "list"
  | PyDict _ => "dict"
  | PyCode _ _ => "code"
  | PyFunction _ _ => "function"
  | PyClass _ => "type"
  | PyObject c _ => cls_id c
  end.

Definition no_attribute (v : pyval) (a : string) : exn :=
  AttributeError
    ("'" +:+ type_name v +:+ "' object has no attribute '" +:+ a +:+ "'").

Fixpoint assoc {A} (k : string) (l : list (string * A)) : option A :=
  match l with
  | [] => None
  | (k', v) :: l' => if String.eqb k k' then Some v else assoc k l'
  end.

(** Attribute access, [v.a]. An instance answers with what its attribute
    table holds (class-level attributes included); a function answers
    [__code__]; a class answers [__bases__]. A read of these values answers
    a value or raises [AttributeError]: an object with a property or a
    [__getattr__] that raises another exception is not among them. *)
Definition getattr (v : pyval) (a : string) : result pyval :=
  match v with
  | PyObject _ attrs =>
      match assoc a attrs with
      | Some x => Ok x
      | None => Raise (no_attribute v a)
      end
  | PyFunction names n =>
      if String.eqb a "__code__" then Ok (PyCode names n)
      else Raise (no_attribute v a)
  | PyClass c =>
      if String.eqb a "__bases__" then Ok (PyList (map PyClass (cls_bases c)))
      else Raise (no_attribute v a)
  | _ => Raise (no_attribute v a)
  end.

Definition co_varnames (code : pyval) : result (list string) :=
  match code with
  | PyCode names _ => Ok names
  | _ => Raise (no_attribute code "co_varnames")
  end.

Definition co_argcount (code : pyval) : result nat :=
  match code with
  | PyCode _ n => Ok n
  | _ => Raise (no_attribute code "co_argcount")
  end.

Definition callable (v : pyval) : bool :=
  match v with
  | PyFunction _ _ => true
  | PyClass _ => true
  | PyObject _ attrs => bool_decide (is_Some (assoc "__call__" attrs))
  | _ => false
  end.

Definition isinstance_str (v : pyval) : bool :=
  match v with PyStr _ => true | _ => false end.

(** [bool] is a subclass of [int]. *)
Definition isinstance_int (v : pyval) : bool :=
  match v with PyInt _ | PyBool _ => true | _ => false end.

Definition isinstance_dict (v : pyval) : bool :=
  match v with PyDict _ => true | _ => false end.

Definition isinstance (v : pyval) (c : pyclass) : bool :=
  match v with
  | PyObject cls _ => issubclass cls c
  | _ => false
  end.

Definition is_class (v : pyval) (c : pyclass) : bool :=
  match v with PyClass d => class_is d c | _ => false end.

(** [c in v] for a class object [c]. *)
Definition class_in (c : pyclass) (v : pyval) : result bool :=
  match v with
  | PyList xs => Ok (existsb (fun x => is_class x c) xs)
  | PyDict _ => Ok false
  | PyStr _ =>
      Raise (TypeError "'in <string>' requires string as left operand, not type")
  | _ =>
      Raise (TypeError ("argument of type '" +:+ type_name v +:+ "' is not iterable"))
  end.

(** [v[0]]. *)
Definition subscript0 (v : pyval) : result pyval :=
  match v with
  | PyList [] => Raise (IndexError "list index out of range")
  | PyList (x :: _) => Ok x
  | PyStr EmptyString => Raise (IndexError "string index out of range")
  | PyStr (String c _) => Ok (PyStr (String c EmptyString))
  | PyDict _ => Raise (KeyError "0")
  | _ => Raise (TypeError ("'" +:+ type_name v +:+ "' object is not subscriptable"))
  end.

Definition truthy (v : pyval) : bool :=
  match v with
  | PyNone => false
  | PyBool b => b
  | PyInt z => negb (z =? 0)
  | PyStr s => nonempty s
  | PyList xs => negb (bool_decide (xs = []))
  | PyDict items => negb (bool_decide (items = []))
  | _ => true
  end.

(** [v.keys()]. *)
Definition dict_keys (v : pyval) : result (list string) :=
  match v with
  | PyDict items => Ok (map fst items)
  | _ => Raise (no_attribute v "keys")
  end.

(** The class [\w] under [re.ASCII]: letters, digits and the underscore. *)
Definition is_word_char (c : ascii) : bool :=
  let n := nat_of_ascii c in
  is_digit c
  || ((65 <=? n)%nat && (n <=? 90)%nat)
  || ((97 <=? n)%nat && (n <=? 122)%nat)
  || (n =? 95)%nat.

(** [re.fullmatch(r"\w+", v, flags=re.ASCII) is not None]. *)
Definition fullmatch_word (v : pyval) : result bool :=
  match v with
  | PyStr s => Ok (nonempty s && string_forall is_word_char s)
  | _ => Raise (TypeError "expected string or bytes-like object")
  end.

Definition nl : string := String (ascii_of_nat 10) EmptyString.
Definition dquote : string := String (ascii_of_nat 34) EmptyString.

Definition repr_bool (b : bool) : string := if b then "True" else "False".

Fixpoint join_comma (l : list string) : string :=
  match l with
  | [] => ""
  | [x] => x
  | x :: l' => x +:+ ", " +:+ join_comma l'
  end.

(** [repr] of a list of booleans, as an f-string prints it. *)
Definition repr_bools (l : list bool) : string :=
  "[" +:+ join_comma (map repr_bool l) +:+ "]".

Definition all (l : list bool) : bool := forallb (fun b => b) l.

(** ** Structural validation: [_validate_capsule] *)

(** [raise InvalidCapsuleError(capsule.name, message)]: the name is read
    from the capsule when the error is built. *)
Definition invalid {A} (capsule : pyval) (message : string) : result A :=
  let* name := getattr capsule "name" in
  (Raise (InvalidCapsuleError name message) : result A).

(** The nested helper [check_arg_names]. *)
Definition check_arg_names (func : pyval) (correct : list string)
    (ignore : option (list string)) : result bool :=
  let* code := getattr func "__code__" in
  let ignore := match ignore with None => [] | Some l => l end in
  let* all_var_names := co_varnames code in
  let* argcount := co_argcount code in
  let arg_names := take argcount all_var_names in
  let filtered :=
    List.filter (fun n => negb (existsb (String.eqb n) ignore)) arg_names in
  Ok (bool_decide (filtered = correct)).

(** Lines 197-201: the name is made of word characters only. *)
Definition check_name (capsule : pyval) : result unit :=
  let* name := getattr capsule "name" in
  let* matched := fullmatch_word name in
  if matched then Ok tt
  else invalid capsule
    ("Capsule names must only contain alphanumeric characters and "
     +:+ "underscores").

(** Lines 203-216: the types of the class attributes. *)
Definition check_class_attributes (capsule : pyval) : result unit :=
  let* name := getattr capsule "name" in
  let* backend_loader := getattr capsule "backend_loader" in
  let* version := getattr capsule "version" in
  let* input_type := getattr capsule "input_type" in
  let* output_type := getattr capsule "output_type" in
  let* options := getattr capsule "options" in
  let capsule_assertions :=
    [ isinstance_str name;
      callable backend_loader;
      isinstance_int version;
      isinstance input_type NodeDescription;
      isinstance output_type NodeDescription;
      isinstance_dict options ] in
  if all capsule_assertions then Ok tt
  else invalid capsule
    ("The capsule has an invalid internal configuration!" +:+ nl
     +:+ "Capsule Assertions: " +:+ repr_bools capsule_assertions).

Definition unwanted_attributes : list string := ["backend_config"].

(** Lines 218-231: each probe is expected to end in [AttributeError], which
    is the one exception its handler lets pass. *)
Fixpoint check_unwanted_attributes (capsule : pyval) (unwanted : list string)
    : result unit :=
  match unwanted with
  | [] => Ok tt
  | unwanted_attr :: rest =>
      let probe : result unit :=
        let* _ := getattr capsule unwanted_attr in
        invalid capsule
          ("The capsule has leftover attributes from a previous "
           +:+ "OpenVisionCapsules API version. Attribute name: "
           +:+ unwanted_attr) in
      match probe with
      | Raise e =>
          if is_AttributeError e then check_unwanted_attributes capsule rest
          else Raise e
      | Ok _ => check_unwanted_attributes capsule rest
      end
  end.

(** Lines 233-242: the parameters of [backend_loader]. *)
Definition check_backend_loader (capsule : pyval) : result unit :=
  let* loader := getattr capsule "backend_loader" in
  let* names_ok := check_arg_names loader ["capsule_files"; "device"] None in
  let loader_assertions := [callable loader; names_ok] in
  if all loader_assertions then Ok tt
  else invalid capsule
    ("The capsule's backend_loader has an invalid configuration!" +:+ nl
     +:+ "Loader Assertions: " +:+ repr_bools loader_assertions).

(** Lines 244-256: the first backend, when the capsule has backends. *)
Definition check_backends (capsule : pyval) : result unit :=
  let* backends := getattr capsule "backends" in
  match backends with
  | PyNone => Ok tt
  | _ =>
      let* backend := subscript0 backends in
      let* batch_predict := getattr backend "batch_predict" in
      let* process_frame := getattr backend "process_frame" in
      let* close := getattr backend "close" in
      let* backends' := getattr capsule "backends" in
      let* first := subscript0 backends' in
      let backend_assertions :=
        [ callable batch_predict;
          callable process_frame;
          callable close;
          isinstance first BaseBackend ] in
      if all backend_assertions then Ok tt
      else invalid capsule
        ("The capsule's backend has an invalid configuration!" +:+ nl
         +:+ "Backend Assertions: " +:+ repr_bools backend_assertions)
  end.

(** Lines 258-267: [stream_state is BaseStreamState or BaseStreamState in
    stream_state.__bases__]. *)
Definition check_stream_state (capsule : pyval) : result unit :=
  let* stream_state := getattr capsule "stream_state" in
  let* accepted :=
    (if is_class stream_state BaseStreamState then Ok true
     else let* bases := getattr stream_state "__bases__" in
          class_in BaseStreamState bases) in
  let stream_state_assertions := [accepted] in
  if all stream_state_assertions then Ok tt
  else invalid capsule
    ("The capsule's stream_state has an invalid configuration!" +:+ nl
     +:+ "Stream State Assertions: " +:+ repr_bools stream_state_assertions).

(** Lines 269-275: an encoder has a [recognition_threshold] option. *)
Definition check_encoder_threshold (capsule : pyval) : result unit :=
  let* capability := getattr capsule "capability" in
  let* encoded := getattr capability "encoded" in
  if truthy encoded then
    let* options := getattr capsule "options" in
    let* keys := dict_keys options in
    if negb (existsb (String.eqb "recognition_threshold") keys) then
      invalid capsule
        ("This capsule can encode, but doesn't have a option "
         +:+ "called " +:+ dquote +:+ "recognition_threshold" +:+ dquote +:+ "!")
    else Ok tt
  else Ok tt.

(** The body of the [try] statement, lines 193-275. *)
Definition validate_body (capsule : pyval) : result unit :=
  check_name capsule >>
  check_class_attributes capsule >>
  check_unwanted_attributes capsule unwanted_attributes >>
  check_backend_loader capsule >>
  check_backends capsule >>
  check_stream_state capsule >>
  check_encoder_threshold capsule.

(** The body with its three handlers, lines 276-285. *)
Definition _validate_capsule (capsule : pyval) : result unit :=
  match validate_body capsule with
  | Ok u => Ok u
  | Raise e =>
      if is_InvalidCapsuleError e then Raise e
      else if is_AttributeError e then
        invalid capsule
          ("The capsule did not describe the necessary attributes. Error: "
           +:+ exn_str e)
      else if is_Exception e then
        invalid capsule
          ("This capsule is invalid for unknown reasons. Error: "
           +:+ exn_str e)
      else Raise e
  end.

(** ** The host process: import resolvers and plugin resources *)

(** A zip archive as [ZipFile] presents it: its entries in the order of
    [namelist()]. *)
Definition archive := list (string * bytes).

Definition namelist (capsule_file : archive) : list string :=
  map fst capsule_file.

(** [ZipFile.read(name)]: when a name occurs more than once the last entry
    is the one read. [None] stands for the [KeyError] of a missing name. *)
Fixpoint zip_read (capsule_file : archive) (name : string) : option bytes :=
  match capsule_file with
  | [] => None
  | (n, content) :: rest =>
      match zip_read rest name with
      | Some later => Some later
      | None => if String.eqb n name then Some content else None
      end
  end.

Inductive finder : Type :=
| BuiltinFinder (finder_name : string)
| ZipFinder (capsule_file : archive) (source_path : Path)
    (capsule_name : string).

(** What the load can change in the process: [sys.meta_path], and the
    resources (backend handles and the like) the plugin's own code holds. *)
Record world : Type := World {
  sys_meta_path : list finder;
  resources : list string
}.

Definition set_meta_path (l : list finder) (w : world) : world :=
  {| sys_meta_path := l; resources := resources w |}.

(** Computations that read and change the world and may raise. *)
Definition M (A : Type) : Type := world -> result A * world.

Definition mreturn {A} (a : A) : M A := fun w => (Ok a, w).

Definition mraise {A} (e : exn) : M A := fun w => (Raise e, w).

Definition mlift {A} (r : result A) : M A := fun w => (r, w).

Definition mbind' {A B} (m : M A) (k : A -> M B) : M B :=
  fun w =>
    match m w with
    | (Ok a, w') => k a w'
    | (Raise e, w') => (Raise e, w')
    end.

Notation "'let+' x ':=' c 'in' k" := (mbind' c (fun x => k))
  (at level 10, x name, c at level 100, k at level 200,
   format "'[v' 'let+'  x  ':='  c  'in' '/' k ']'").

(** [try: body / except Exception as e: handler e]: an exception that
    does not derive from [Exception] is not caught. *)
Definition try_except {A} (body : M A) (handler : exn -> M A) : M A :=
  fun w =>
    match body w with
    | (Ok a, w') => (Ok a, w')
    | (Raise e, w') =>
        if is_Exception e then handler e w' else (Raise e, w')
    end.

(** [try: body / finally: cleanup]: the cleanup runs whatever the body did,
    and an exception of the cleanup replaces the body's outcome. *)
Definition try_finally {A} (body : M A) (cleanup : M unit) : M A :=
  fun w =>
    let '(r, w') := body w in
    match cleanup w' with
    | (Ok _, w'') => (r, w'')
    | (Raise e, w'') => (Raise e, w'')
    end.

(** [list.insert(i, x)] for [i >= 0]: past the end it appends. *)
Definition list_insert_at {A} (i : nat) (x : A) (l : list A) : list A :=
  take i l ++ x :: drop i l.

(** [list.pop(i)] for [i >= 0]; [None] stands for [IndexError]. *)
Definition list_pop_at {A} (i : nat) (l : list A) : option (A * list A) :=
  match l !! i with
  | Some x => Some (x, take i l ++ drop (S i) l)
  | None => None
  end.

Definition meta_path_insert (i : nat) (f : finder) : M unit :=
  fun w => (Ok tt, set_meta_path (list_insert_at i f (sys_meta_path w)) w).

Definition meta_path_pop (i : nat) : M unit :=
  fun w =>
    match list_pop_at i (sys_meta_path w) with
    | Some (_, l) => (Ok tt, set_meta_path l w)
    | None => (Raise (IndexError "pop index out of range"), w)
    end.

(** A module after its code ran: the [Capsule] it defines, if any, as the
    effect of calling it with [capsule_files] and [inference_mode]. *)
Record pymodule : Type := PyModule {
  module_name : string;
  module_Capsule : option (gmap string bytes -> bool -> M pyval)
}.

(** The parsed [meta.conf] as [ConfigParser] keeps it: the options of the
    [DEFAULT] section in [_defaults] and, by section name, those of every
    other section in [_sections]. The parser stores an option under its
    lower-cased name, with the declared value stripped of the white space
    around it and otherwise as written: a [%] is expanded when the option
    is read, not when it is stored. *)
Record config : Type := Config {
  _defaults : gmap string string;
  _sections : gmap string (gmap string string)
}.

(** The exceptions of [BasicInterpolation]; they derive from [Exception]
    and not from [KeyError]. The [%r] of their messages is written as the
    text between single quotes. *)
Definition py_repr (s : string) : string := "'" +:+ s +:+ "'".

Definition InterpolationSyntaxError (message : string) : exn :=
  OtherException "InterpolationSyntaxError" message.

Definition InterpolationMissingOptionError (opt section rawval reference
    : string) : exn :=
  OtherException "InterpolationMissingOptionError"
    ("Bad value substitution: option " +:+ py_repr opt
     +:+ " in section " +:+ py_repr section
     +:+ " contains an interpolation key " +:+ py_repr reference
     +:+ " which is not a valid option name. Raw value: "
     +:+ py_repr rawval).

Definition InterpolationDepthError (opt section rawval : string) : exn :=
  OtherException "InterpolationDepthError"
    ("Recursion limit exceeded in value substitution: option "
     +:+ py_repr opt +:+ " in section " +:+ py_repr section
     +:+ " contains an interpolation key which cannot be substituted in "
     +:+ "10 steps. Raw value: " +:+ py_repr rawval).

Definition MAX_INTERPOLATION_DEPTH : nat := 10.

(** [rest.find("%")] with the two slices taken at it: the text before the
    first percent sign and, when there is one, the text from it on. *)
Fixpoint split_percent (s : string) : string * option string :=
  match s with
  | EmptyString => (EmptyString, None)
  | String c s' =>
      if Ascii.eqb c "%" then (EmptyString, Some s)
      else let '(before, rest) := split_percent s' in (String c before, rest)
  end.

(** ["%" in v]. *)
Definition has_percent (v : string) : bool :=
  match split_percent v with
  | (_, Some _) => true
  | (_, None) => false
  end.

(** The run of [[^)]] characters at the head of [s], up to a closing
    parenthesis, and the text after that parenthesis. *)
Fixpoint until_paren (s : string) : option (string * string) :=
  match s with
  | EmptyString => None
  | String c s' =>
      if Ascii.eqb c ")" then Some (EmptyString, s')
      else match until_paren s' with
           | Some (name, rest) => Some (String c name, rest)
           | None => None
           end
  end.

(** [_KEYCRE.match(rest)] for [_KEYCRE = re.compile(r"%\(([^)]+)\)s")]: the
    group and the text from [m.end()] on. *)
Definition keycre_match (rest : string) : option (string * string) :=
  match rest with
  | String c0 (String c1 r) =>
      if Ascii.eqb c0 "%" && Ascii.eqb c1 "(" then
        match until_paren r with
        | Some (name, String c2 rest') =>
            if nonempty name && Ascii.eqb c2 "s" then Some (name, rest')
            else None
        | _ => None
        end
      else None
  | _ => None
  end.

(** The [_ChainMap] of [_unify_values] without [vars]: the section's own
    options first, then those of [DEFAULT]. *)
Definition chain_map (sectiondict defaults : gmap string string)
    (opt : string) : option string :=
  match sectiondict !! opt with
  | Some v => Some v
  | None => defaults !! opt
  end.

(** ** What the module calls but does not define

    The two file names come from [vcap.loading.packaging] and [decrypt]
    from [vcap.loading.crypto_utils]; the rest is the standard library and
    the interpreter: [hashlib.sha256(...).hexdigest()], [ZipFile(BytesIO(..))],
    [bytes.decode("utf-8")], [ConfigParser.read_string], the [str.lower]
    that [ConfigParser] applies to option names, [compile] followed by
    [exec], and the capsule object's own [close] method. *)
Class Runtime : Type := {
  CAPSULE_FILE_NAME : string;
  META_FILE_NAME : string;
  sha256_hexdigest : bytes -> string;
  decrypt : string -> bytes -> result bytes;
  ZipFile : bytes -> result archive;
  decode_utf8 : bytes -> result string;
  read_string : string -> result config;
  str_lower : string -> string;
  compile_exec : bytes -> Path -> string -> M pymodule;
  capsule_close : pyval -> M unit
}.

Section Loading.

Context {R : Runtime}.

(** [capsule_module_name]. *)
Definition capsule_module_name (data : bytes) : string :=
  "capsule_" +:+ sha256_hexdigest data.

(** Lines 63-70: the loop over [namelist()] that fills [code] and
    [loaded_files]. *)
Fixpoint read_entries (capsule_file : archive) (names : list string)
    (code : option bytes) (loaded_files : gmap string bytes)
    : result (option bytes * gmap string bytes) :=
  match names with
  | [] => Ok (code, loaded_files)
  | name :: rest =>
      if String.eqb name CAPSULE_FILE_NAME then
        match zip_read capsule_file CAPSULE_FILE_NAME with
        | Some content => read_entries capsule_file rest (Some content) loaded_files
        | None => Raise (KeyError CAPSULE_FILE_NAME)
        end
      else
        match zip_read capsule_file name with
        | Some content =>
            read_entries capsule_file rest code (<[name := content]> loaded_files)
        | None => Raise (KeyError name)
        end
  end.

Definition in_names (name : string) (names : list string) : bool :=
  existsb (String.eqb name) names.

(** [BasicInterpolation._interpolate_some], the loop [while rest:] of one
    call. [deeper] is the call one level down, [n] bounds the turns of the
    loop: each turn that goes on takes at least two characters off [rest],
    so the length of [rest] is enough. *)
Fixpoint interpolate_loop (deeper : string -> string -> result string)
    (map : string -> option string) (opt section rawval : string)
    (n : nat) (rest accum : string) : result string :=
  match rest with
  | EmptyString => Ok accum
  | String _ _ =>
      match n with
      | O => Ok accum
      | S n' =>
          match split_percent rest with
          | (_, None) => Ok (accum +:+ rest)
          | (before, Some rest) =>
              let accum := accum +:+ before in
              match rest with
              | String _ (String c rest') =>
                  if Ascii.eqb c "%" then
                    interpolate_loop deeper map opt section rawval n' rest'
                      (accum +:+ "%")
                  else if Ascii.eqb c "(" then
                    match keycre_match rest with
                    | None =>
                        Raise (InterpolationSyntaxError
                                 ("bad interpolation variable reference "
                                  +:+ py_repr rest))
                    | Some (name, rest') =>
                        let var := str_lower name in
                        match map var with
                        | None =>
                            Raise (InterpolationMissingOptionError opt
                                     section rawval var)
                        | Some v =>
                            if has_percent v then
                              let* accum := deeper v accum in
                              interpolate_loop deeper map opt section rawval
                                n' rest' accum
                            else
                              interpolate_loop deeper map opt section rawval
                                n' rest' (accum +:+ v)
                        end
                    end
                  else
                    Raise (InterpolationSyntaxError
                             ("'%' must be followed by '%' or '(', found: "
                              +:+ py_repr rest))
              | _ =>
                  Raise (InterpolationSyntaxError
                           ("'%' must be followed by '%' or '(', found: "
                            +:+ py_repr rest))
              end
          end
      end
  end.

(** [_interpolate_some] with its test of the depth; [depth] counts the
    levels still allowed, [MAX_INTERPOLATION_DEPTH] at the first call. *)
Fixpoint _interpolate_some (depth : nat) (map : string -> option string)
    (opt section rawval : string) (rest accum : string) : result string :=
  match depth with
  | O => Raise (InterpolationDepthError opt section rawval)
  | S depth' =>
      interpolate_loop
        (_interpolate_some depth' map opt section rawval)
        map opt section rawval (String.length rest) rest accum
  end.

(** [BasicInterpolation.before_get]. *)
Definition before_get (map : string -> option string)
    (opt section value : string) : result string :=
  _interpolate_some MAX_INTERPOLATION_DEPTH map opt section value value
    EmptyString.

(** [meta_conf["about"]]: [ConfigParser.__getitem__] on a name that is not
    [DEFAULT]. *)
Definition config_getitem (meta_conf : config) (key : string)
    : result (gmap string string) :=
  match _sections meta_conf !! key with
  | Some sectiondict => Ok sectiondict
  | None => Raise (KeyError key)
  end.

(** [meta_conf[section][key]] for a [key] written in lower case, which
    [optionxform] leaves as it is: [SectionProxy.__getitem__] raises
    [KeyError] when neither the section nor [DEFAULT] has the option, and
    otherwise answers [ConfigParser.get], the stored value interpolated. *)
Definition section_getitem (meta_conf : config) (section : string)
    (sectiondict : gmap string string) (key : string) : result string :=
  let map := chain_map sectiondict (_defaults meta_conf) in
  match map key with
  | None => Raise (KeyError key)
  | Some value => before_get map key section value
  end.

(** What lines 54-76 hand to the rest of the load. *)
Record opened : Type := Opened {
  capsule_file : archive;
  code : option bytes;
  loaded_files : gmap string bytes;
  compatibility_version : string
}.

(** Lines 46-76: decryption, the archive and its two required entries, the
    entries read, and the compatibility version out of [meta.conf]. *)
Definition open_capsule (capsule_name : string) (data : bytes)
    (key : option string) : result opened :=
  let* data := match key with
               | Some k => decrypt k data
               | None => Ok data
               end in
  let* capsule_file := ZipFile data in
  if negb (in_names CAPSULE_FILE_NAME (namelist capsule_file)) then
    Raise (InvalidCapsuleError (PyStr capsule_name)
             ("Missing file " +:+ CAPSULE_FILE_NAME))
  else if negb (in_names META_FILE_NAME (namelist capsule_file)) then
    Raise (InvalidCapsuleError (PyStr capsule_name)
             ("Missing file " +:+ META_FILE_NAME))
  else
    let* entries := read_entries capsule_file (namelist capsule_file) None ∅ in
    let '(code, loaded_files) := entries in
    let* meta_bytes := match loaded_files !! META_FILE_NAME with
                       | Some b => Ok b
                       | None => Raise (KeyError META_FILE_NAME)
                       end in
    let* meta_text := decode_utf8 meta_bytes in
    let* meta_conf := read_string meta_text in
    let* about := config_getitem meta_conf "about" in
    let* compatibility_version :=
      section_getitem meta_conf "about" about "api_compatibility_version" in
    Ok (Opened capsule_file code loaded_files compatibility_version).

(** Lines 108-126: the resolver goes on [sys.meta_path] at index 1, the code
    is compiled and run, and [finally] takes index 1 off again. *)
Definition execute_capsule_code (capsule_name : string)
    (capsule_file : archive) (source_path : Path) (code : option bytes)
    : M pymodule :=
  let+ _ := meta_path_insert 1
              (ZipFinder capsule_file source_path capsule_name) in
  try_finally
    (try_except
       (match code with
        | Some c =>
            compile_exec c (path_join source_path CAPSULE_FILE_NAME) capsule_name
        | None =>
            mraise (TypeError "compile() arg 1 must be a string, bytes or AST object")
        end)
       (fun e =>
          mraise (InvalidCapsuleError (PyStr capsule_name)
                    ("Could not execute the code in the capsule!" +:+ nl
                     +:+ "Error: " +:+ exn_str e))))
    (meta_path_pop 1).

(** Lines 129-131: [capsule_module.Capsule(capsule_files=loaded_files,
    inference_mode=inference_mode)]. *)
Definition instantiate (capsule_module : pymodule)
    (loaded_files : gmap string bytes) (inference_mode : bool) : M pyval :=
  match module_Capsule capsule_module with
  | Some Capsule => Capsule loaded_files inference_mode
  | None =>
      mraise (AttributeError
                ("module '" +:+ module_name capsule_module
                 +:+ "' has no attribute 'Capsule'"))
  end.

(** Lines 133-139: validation, with [close] called on the capsule before an
    [InvalidCapsuleError] is raised again. *)
Definition validate_or_close (new_capsule : pyval) : M pyval :=
  match _validate_capsule new_capsule with
  | Ok _ => mreturn new_capsule
  | Raise e =>
      if is_InvalidCapsuleError e then
        let+ _ := capsule_close new_capsule in
        mraise e
      else mraise e
  end.

(** Lines 108-139: what the load does once the version gate has accepted. *)
Definition load_after_gate (capsule_name : string) (source_path : Path)
    (o : opened) (inference_mode : bool) : M pyval :=
  let+ capsule_module :=
    execute_capsule_code capsule_name (capsule_file o) source_path (code o) in
  let+ new_capsule := instantiate capsule_module (loaded_files o) inference_mode in
  validate_or_close new_capsule.

(** Lines 41-44: the module name, and the path used when none is given. *)
Definition default_source_path (data : bytes) (source_path : option Path)
    : Path :=
  match source_path with
  | None => ["/"; capsule_module_name data]
  | Some p => p
  end.

(** [load_capsule_from_bytes]. *)
Definition load_capsule_from_bytes (data : bytes) (source_path : option Path)
    (key : option string) (inference_mode : bool) : M pyval :=
  let capsule_name := capsule_module_name data in
  let source_path := default_source_path data source_path in
  let+ o := mlift (open_capsule capsule_name data key) in
  let+ _ := mlift (check_compatibility capsule_name (compatibility_version o)) in
  load_after_gate capsule_name source_path o inference_mode.

End Loading.

(** ** A sample capsule and a sample host

    Concrete values on which the definitions above are run. *)
Module Sample.

Definition Backend : pyclass := Class "Backend" [BaseBackend].

Definition backend : pyval :=
  PyObject Backend
    [ ("batch_predict", PyFunction ["self"; "input_data_list"] 2);
      ("process_frame", PyFunction ["self"; "frame"; "detection_node"] 3);
      ("close", PyFunction ["self"] 1) ].

Definition Capsule : pyclass :=
  Class "Capsule" [Class "BaseCapsule" [object_class]].

Definition node : pyval := PyObject NodeDescription [].

Definition capability (encoded : bool) : pyval :=
  PyObject NodeDescription [("encoded", PyBool encoded)].

(** A capsule object with the given loader, backends, stream state, encoder
    flag and options; the other attributes are as a well-formed capsule
    declares them. *)
Definition capsule_with (loader backends stream_state : pyval)
    (encoded : bool) (options : list (string * pyval)) : pyval :=
  PyObject Capsule
    [ ("name", PyStr "detector_person");
      ("version", PyInt 1);
      ("input_type", node);
      ("output_type", node);
      ("options", PyDict options);
      ("backend_loader", loader);
      ("backends", backends);
      ("stream_state", stream_state);
      ("capability", capability encoded) ].

Definition lambda_loader : pyval := PyFunction ["capsule_files"; "device"] 2.

Definition capsule : pyval :=
  capsule_with lambda_loader (PyList [backend]) (PyClass BaseStreamState)
    false [].

(** A loader written as a method: [def backend_loader(self, capsule_files,
    device)]. *)
Definition method_loader : pyval :=
  PyFunction ["self"; "capsule_files"; "device"] 3.

Definition method_capsule : pyval :=
  capsule_with method_loader (PyList [backend]) (PyClass BaseStreamState)
    false [].

(** [class CounterState(BaseStreamState)] and
    [class TrackerState(CounterState)]. *)
Definition CounterState : pyclass := Class "CounterState" [BaseStreamState].
Definition TrackerState : pyclass := Class "TrackerState" [CounterState].

Definition counter_capsule : pyval :=
  capsule_with lambda_loader (PyList [backend]) (PyClass CounterState)
    false [].

Definition tracker_capsule : pyval :=
  capsule_with lambda_loader (PyList [backend]) (PyClass TrackerState)
    false [].

(** An encoder without options, and a capsule that has no backend. *)
Definition encoder_capsule : pyval :=
  capsule_with lambda_loader (PyList [backend]) (PyClass BaseStreamState)
    true [].

Definition no_backend_capsule : pyval :=
  capsule_with lambda_loader (PyList []) (PyClass BaseStreamState) false [].

(** A constructor that returns the capsule [c]; in inference mode it
    starts a backend, which is a resource the capsule then holds. *)
Definition construct_of (c : pyval) (files : gmap string bytes)
    (inference_mode : bool) : M pyval :=
  fun w =>
    (Ok c,
     {| sys_meta_path := sys_meta_path w;
        resources := if inference_mode then "backend" :: resources w
                     else resources w |}).

Definition construct : gmap string bytes -> bool -> M pyval :=
  construct_of capsule.

Definition close (c : pyval) : M unit :=
  fun w => (Ok tt, {| sys_meta_path := sys_meta_path w; resources := [] |}).

Definition code_bytes : bytes := [Byte.x70; Byte.x61; Byte.x73; Byte.x73].
Definition meta_bytes : bytes := [Byte.x5b; Byte.x61; Byte.x5d].
Definition model_bytes : bytes := [Byte.x00; Byte.xff].

Definition files : archive :=
  [ ("capsule.py", code_bytes);
    ("meta.conf", meta_bytes);
    ("detector.pb", model_bytes) ].

(** [str.lower] on ASCII letters. *)
Definition ascii_lower (c : ascii) : ascii :=
  let n := nat_of_ascii c in
  if (65 <=? n)%nat && (n <=? 90)%nat then ascii_of_nat (n + 32) else c.

Fixpoint lower (s : string) : string :=
  match s with
  | EmptyString => EmptyString
  | String c s' => String (ascii_lower c) (lower s')
  end.

(** A [meta.conf] with the one section [about]. *)
Definition about (options : gmap string string) : config :=
  Config ∅ {[ "about" := options ]}.

Definition meta (version : string) : config :=
  about {[ "api_compatibility_version" := version ]}.

(** A host whose archive reader answers [capsule_file], whose INI parser
    answers [meta_conf], and where running the capsule's code has the
    effect [run]. *)
Definition host (capsule_file : archive) (meta_conf : result config)
    (run : M pymodule) (close : pyval -> M unit) : Runtime :=
  {| CAPSULE_FILE_NAME := "capsule.py";
     META_FILE_NAME := "meta.conf";
     sha256_hexdigest := fun _ => "e3b0c442";
     decrypt := fun _ data => Ok data;
     ZipFile := fun _ => Ok capsule_file;
     decode_utf8 := fun b => Ok (string_of_list_byte b);
     read_string := fun _ => meta_conf;
     str_lower := lower;
     compile_exec := fun _ _ _ => run;
     capsule_close := close |}.

Definition defines (build : gmap string bytes -> bool -> M pyval) : M pymodule :=
  mreturn (PyModule "capsule_e3b0c442" (Some build)).

Definition world0 : world :=
  {| sys_meta_path := [BuiltinFinder "BuiltinImporter";
                       BuiltinFinder "FrozenImporter";
                       BuiltinFinder "PathFinder"];
     resources := [] |}.

(** The host of a well-formed capsule whose [meta.conf] declares [version]. *)
Definition good_host (version : string) : Runtime :=
  host files (Ok (meta version)) (defines construct) close.

(** The host of a capsule whose constructor returns [c]. *)
Definition host_of (c : pyval) : Runtime :=
  host files (Ok (meta "0.2")) (defines (construct_of c)) close.

(** A capsule whose code does not compile. *)
Definition syntax_error : exn :=
  OtherException "SyntaxError" "invalid syntax".

Definition broken_host : Runtime :=
  host files (Ok (meta "0.2")) (mraise syntax_error) close.

(** Three capsules with a defective [meta.conf]: no
    [api_compatibility_version] under [about], no [about] section, and text
    the INI parser rejects. *)
Definition no_version_host : Runtime :=
  host files (Ok (about {[ "author" := "someone" ]}))
    (defines construct) close.

Definition no_about_host : Runtime :=
  host files
    (Ok (Config ∅ {[ "general" := {[ "api_compatibility_version" := "0.2" ]} ]}))
    (defines construct) close.

Definition missing_header : exn :=
  OtherException "MissingSectionHeaderError"
    "File contains no section headers.".

Definition unparsable_host : Runtime :=
  host files (Raise missing_header) (defines construct) close.

(** [class Capsule: def __init__(self, capsule_files, inference_mode):
    pass]: an object with no attribute at all. *)
Definition bare_capsule : pyval := PyObject (Class "Capsule" [object_class]) [].

(** What [open_capsule] finds in [files]. *)
Definition opened_as (version : string) : opened :=
  Opened files (Some code_bytes)
    (<["detector.pb" := model_bytes]> (<["meta.conf" := meta_bytes]> ∅))
    version.

End Sample.


(** ** Notions used to state the properties *)

(** The compatibility string parsed into its two numbers (lines 78-86). *)
Definition parse_version (s : string) : option (Z * Z) :=
  match semver_fullmatch s with
  | Some (g1, g2) =>
      match py_int g1, py_int g2 with
      | Some major, Some minor => Some (major, minor)
      | _, _ => None
      end
  | None => None
  end.


(** The parameters a callable declares: the first [co_argcount] names. *)
Definition declared_parameters (names : list string) (argcount : nat)
    : list string :=
  take argcount names.

(** The specification's reading of the loader check: a leading [self] is
    set aside before the names are compared. *)
Definition without_receiver (names : list string) : list string :=
  match names with
  | n :: rest => if String.eqb n "self" then rest else names
  | [] => []
  end.

(** The class itself or one listed in its [__bases__]. *)
Definition base_or_direct_subclass (c target : pyclass) : bool :=
  class_is c target || existsb (fun b => class_is b target) (cls_bases c).

(** Every check of the validation but the one on [backend_loader]. *)
Definition valid_apart_from_loader (capsule : pyval) : Prop :=
  check_name capsule = Ok tt
  /\ check_class_attributes capsule = Ok tt
  /\ check_unwanted_attributes capsule unwanted_attributes = Ok tt
  /\ check_backends capsule = Ok tt
  /\ check_stream_state capsule = Ok tt
  /\ check_encoder_threshold capsule = Ok tt.

(** Every check of the validation but the one on [stream_state]. *)
Definition valid_apart_from_stream_state (capsule : pyval) : Prop :=
  check_name capsule = Ok tt
  /\ check_class_attributes capsule = Ok tt
  /\ check_unwanted_attributes capsule unwanted_attributes = Ok tt
  /\ check_backend_loader capsule = Ok tt
  /\ check_backends capsule = Ok tt
  /\ check_encoder_threshold capsule = Ok tt.

(** Every check of the validation but the one on the encoder's option. *)
Definition valid_apart_from_threshold (capsule : pyval) : Prop :=
  check_name capsule = Ok tt
  /\ check_class_attributes capsule = Ok tt
  /\ check_unwanted_attributes capsule unwanted_attributes = Ok tt
  /\ check_backend_loader capsule = Ok tt
  /\ check_backends capsule = Ok tt
  /\ check_stream_state capsule = Ok tt.

(** The checks that come before the one on [backends]. *)
Definition valid_up_to_backends (capsule : pyval) : Prop :=
  check_name capsule = Ok tt
  /\ check_class_attributes capsule = Ok tt
  /\ check_unwanted_attributes capsule unwanted_attributes = Ok tt
  /\ check_backend_loader capsule = Ok tt.

(** [d[k] = x] on the items of a dictionary, and [obj.a = x]. *)
Fixpoint assoc_set {A} (k : string) (x : A) (l : list (string * A))
    : list (string * A) :=
  match l with
  | [] => [(k, x)]
  | (k', y) :: l' =>
      if String.eqb k k' then (k, x) :: l' else (k', y) :: assoc_set k x l'
  end.

Definition setattr (v : pyval) (a : string) (x : pyval) : pyval :=
  match v with
  | PyObject cls attrs => PyObject cls (assoc_set a x attrs)
  | _ => v
  end.

(** The capsule with one more entry in its [options]. *)
Definition with_option (capsule : pyval) (items : list (string * pyval))
    (k : string) (x : pyval) : pyval :=
  setattr capsule "options" (PyDict (assoc_set k x items)).

(** The auxiliary files as the specification words them: every entry but
    the code entry and the meta entry. *)
Definition non_designated `{R : Runtime} (capsule_file : archive)
    (name : string) : option bytes :=
  if String.eqb name CAPSULE_FILE_NAME || String.eqb name META_FILE_NAME
  then None else zip_read capsule_file name.

(** The files [loaded_files] holds: every entry but the code entry. *)
Definition all_but_code `{R : Runtime} (capsule_file : archive)
    (name : string) : option bytes :=
  if String.eqb name CAPSULE_FILE_NAME then None
  else zip_read capsule_file name.

(** [quiet r]: [r] does not raise [InvalidCapsuleError]. *)
Definition quiet {A} (r : result A) : Prop :=
  forall e, r = Raise e -> is_InvalidCapsuleError e = false.

(** [plain r]: what [r] raises derives from [Exception]. *)
Definition plain {A} (r : result A) : Prop :=
  forall e, r = Raise e -> is_Exception e = true.

(** [named n r]: an [InvalidCapsuleError] raised by [r] carries the name [n]. *)
Definition named {A} (n : pyval) (r : result A) : Prop :=
  forall e, r = Raise e -> is_InvalidCapsuleError e = true ->
            exists msg, e = InvalidCapsuleError n msg.

(** The error line 120 raises for an exception [e] of the capsule's code. *)
Definition execution_failed (capsule_name : string) (e : exn) : exn :=
  InvalidCapsuleError (PyStr capsule_name)
    ("Could not execute the code in the capsule!" +:+ nl
     +:+ "Error: " +:+ exn_str e).

(** The world in which the capsule's code runs: the resolver is at index 1
    of [sys.meta_path]. *)
Definition resolver_active (capsule_name : string) (capsule_file : archive)
    (source_path : Path) (w : world) : world :=
  set_meta_path
    (list_insert_at 1 (ZipFinder capsule_file source_path capsule_name)
       (sys_meta_path w)) w.

(** A computation that leaves [sys.meta_path] as it found it. *)
Definition keeps_meta_path {A} (m : M A) : Prop :=
  forall w, sys_meta_path (snd (m w)) = sys_meta_path w.

(** The capsule's own code (its module body, its constructor, its [close])
    does not edit [sys.meta_path]. *)
Definition plugin_keeps_meta_path (R : Runtime) : Prop :=
  (forall c p n, keeps_meta_path (compile_exec c p n))
  /\ (forall c p n w m w' build files mode,
        compile_exec c p n w = (Ok m, w') ->
        module_Capsule m = Some build ->
        keeps_meta_path (build files mode))
  /\ (forall c, keeps_meta_path (capsule_close c)).

(** ** Loading from a file: [load_capsule] *)

(** [pathlib] and the file system: [Path.parent], [Path.stem],
    [Path.absolute()] and [Path.read_bytes()]. *)
Class FileSystem : Type := {
  path_parent : Path -> Path;
  path_stem : Path -> string;
  path_absolute : Path -> Path;
  read_bytes : Path -> result bytes
}.

(** Line 155: [(path.parent / path.stem).absolute()]. *)
Definition source_path_of `{F : FileSystem} (path : Path) : Path :=
  path_absolute (path_join (path_parent path) (path_stem path)).

(** [load_capsule]. *)
Definition load_capsule `{R : Runtime} `{F : FileSystem} (path : Path)
    (key : option string) (inference_mode : bool) : M pyval :=
  let source_path := source_path_of path in
  let+ data := mlift (read_bytes path) in
  load_capsule_from_bytes data (Some source_path) key inference_mode.

(** ** Further notions used to state properties *)

(** The value of a decimal numeral read from its most significant digit,
    on top of [acc]: what [int_digits] computes on its characters. *)
Fixpoint uint_value (d : Decimal.uint) (acc : Z) : Z :=
  match d with
  | Decimal.Nil => acc
  | Decimal.D0 l => uint_value l (10 * acc + 0)
  | Decimal.D1 l => uint_value l (10 * acc + 1)
  | Decimal.D2 l => uint_value l (10 * acc + 2)
  | Decimal.D3 l => uint_value l (10 * acc + 3)
  | Decimal.D4 l => uint_value l (10 * acc + 4)
  | Decimal.D5 l => uint_value l (10 * acc + 5)
  | Decimal.D6 l => uint_value l (10 * acc + 6)
  | Decimal.D7 l => uint_value l (10 * acc + 7)
  | Decimal.D8 l => uint_value l (10 * acc + 8)
  | Decimal.D9 l => uint_value l (10 * acc + 9)
  end.

(** A name the first check of the validation lets through. *)
Definition word_name (s : string) : bool :=
  nonempty s && string_forall is_word_char s.

Fixpoint string_exists (p : ascii -> bool) (s : string) : bool :=
  match s with
  | EmptyString => false
  | String c s' => p c || string_exists p s'
  end.

(** Two objects that answer every attribute but [a] alike. *)
Definition same_attributes_but (a : string) (c c' : pyval) : Prop :=
  forall b, b <> a -> getattr c b = getattr c' b.

(** What the validation asks of the first element of [backends]. *)
Definition first_backend_sound (backends : pyval) : Prop :=
  exists b batch_predict process_frame close,
    subscript0 backends = Ok b
    /\ getattr b "batch_predict" = Ok batch_predict
    /\ getattr b "process_frame" = Ok process_frame
    /\ getattr b "close" = Ok close
    /\ callable batch_predict = true
    /\ callable process_frame = true
    /\ callable close = true
    /\ isinstance b BaseBackend = true.

(** Every check of the validation but the one on [backends]. *)
Definition valid_apart_from_backends (capsule : pyval) : Prop :=
  check_name capsule = Ok tt
  /\ check_class_attributes capsule = Ok tt
  /\ check_unwanted_attributes capsule unwanted_attributes = Ok tt
  /\ check_backend_loader capsule = Ok tt
  /\ check_stream_state capsule = Ok tt
  /\ check_encoder_threshold capsule = Ok tt.

Module MoreSamples.

(** A capsule that still carries the [backend_config] of an older API. *)
Definition stale_capsule : pyval :=
  setattr Sample.capsule "backend_config" (PyDict []).

(** A capsule named with a dash, and one whose name is a number. *)
Definition dashed_capsule : pyval :=
  setattr Sample.capsule "name" (PyStr "detector-person").

Definition numbered_capsule : pyval :=
  setattr Sample.capsule "name" (PyInt 7).

(** A capsule whose loader is a class: callable, without [__code__]. *)
Definition class_loader_capsule : pyval :=
  setattr Sample.capsule "backend_loader" (PyClass Sample.Backend).

(** Capsules with a second backend, sound or not. *)
Definition two_backends : pyval :=
  setattr Sample.capsule "backends"
    (PyList [Sample.backend; Sample.backend]).

Definition odd_second_backend : pyval :=
  setattr Sample.capsule "backends" (PyList [Sample.backend; PyInt 0]).

(** A capsule loaded for inspection only: no backend was started. *)
Definition inspection_capsule : pyval :=
  Sample.capsule_with Sample.lambda_loader PyNone (PyClass BaseStreamState)
    false [].

(** A host whose capsule module defines no [Capsule]. *)
Definition empty_module_host : Runtime :=
  Sample.host Sample.files (Ok (Sample.meta "0.2"))
    (mreturn (PyModule "capsule_e3b0c442" None)) Sample.close.

(** A host whose [Capsule] constructor raises. *)
Definition failing_constructor : gmap string bytes -> bool -> M pyval :=
  fun _ _ => mraise (KeyError "detector.pb").

Definition failing_constructor_host : Runtime :=
  Sample.host Sample.files (Ok (Sample.meta "0.2"))
    (Sample.defines failing_constructor) Sample.close.

(** Archives that lack the code entry, the meta entry, or both. *)
Definition files_without_code : archive :=
  [ ("meta.conf", Sample.meta_bytes); ("detector.pb", Sample.model_bytes) ].

Definition files_without_meta : archive :=
  [ ("capsule.py", Sample.code_bytes); ("detector.pb", Sample.model_bytes) ].

Definition host_with_files (capsule_file : archive) : Runtime :=
  Sample.host capsule_file (Ok (Sample.meta "0.2"))
    (Sample.defines Sample.construct) Sample.close.

(** A host whose decryption rejects the key, and one whose archive reader
    rejects the bytes. *)
Definition bad_key : exn := ValueError "MAC check failed".

Definition wrong_key_host : Runtime :=
  {| CAPSULE_FILE_NAME := "capsule.py";
     META_FILE_NAME := "meta.conf";
     sha256_hexdigest := fun _ => "e3b0c442";
     decrypt := fun _ _ => Raise bad_key;
     ZipFile := fun _ => Ok Sample.files;
     decode_utf8 := fun b => Ok (string_of_list_byte b);
     read_string := fun _ => Ok (Sample.meta "0.2");
     str_lower := Sample.lower;
     compile_exec := fun _ _ _ => Sample.defines Sample.construct;
     capsule_close := Sample.close |}.

Definition bad_zip : exn := OtherException "BadZipFile" "File is not a zip file".

Definition not_a_zip_host : Runtime :=
  {| CAPSULE_FILE_NAME := "capsule.py";
     META_FILE_NAME := "meta.conf";
     sha256_hexdigest := fun _ => "e3b0c442";
     decrypt := fun _ data => Ok data;
     ZipFile := fun _ => Raise bad_zip;
     decode_utf8 := fun b => Ok (string_of_list_byte b);
     read_string := fun _ => Ok (Sample.meta "0.2");
     str_lower := Sample.lower;
     compile_exec := fun _ _ _ => Sample.defines Sample.construct;
     capsule_close := Sample.close |}.



Definition default_meta : config :=
  Config {[ "api_compatibility_version" := "0.2" ]}
         {[ "about" := {[ "author" := "someone" ]} ]}.

Definition default_version_host : Runtime :=
  Sample.host Sample.files (Ok default_meta)
    (Sample.defines Sample.construct) Sample.close.

(** A capsule whose code puts a finder of its own first on
    [sys.meta_path], with [sys.meta_path.insert(0, finder)], and one whose
    code calls [sys.exit(1)]. *)
Definition own_finder : finder := BuiltinFinder "CapsuleFinder".

Definition meddling_host : Runtime :=
  Sample.host Sample.files (Ok (Sample.meta "0.2"))
    (let+ _ := meta_path_insert 0 own_finder in
     Sample.defines Sample.construct)
    Sample.close.

Definition system_exit : exn := NonException "SystemExit" "1".

Definition exiting_host : Runtime :=
  Sample.host Sample.files (Ok (Sample.meta "0.2")) (mraise system_exit)
    Sample.close.

(** An archive that has two entries named [detector.pb], and what
    [open_capsule] finds in it. *)
Definition stale_model_bytes : bytes := [Byte.x01].

Definition files_with_repeat : archive :=
  [ ("capsule.py", Sample.code_bytes);
    ("detector.pb", stale_model_bytes);
    ("meta.conf", Sample.meta_bytes);
    ("detector.pb", Sample.model_bytes) ].

Definition opened_with_repeat : opened :=
  Opened files_with_repeat (Some Sample.code_bytes)
    (<["detector.pb" := Sample.model_bytes]>
       (<["meta.conf" := Sample.meta_bytes]> ∅))
    "0.2".

(** A compatibility string of the pattern whose major is 4301 zeros, one
    more character than [int] converts. *)
Fixpoint zeros (n : nat) : string :=
  match n with
  | O => EmptyString
  | S n' => String "0"%char (zeros n')
  end.

Definition long_version : string := zeros (S int_max_str_digits) +:+ ".2".

(** A process whose [sys.meta_path] was emptied. *)
Definition bare_world : world := {| sys_meta_path := []; resources := [] |}.

(** A file system with one capsule file. *)
Definition disk : FileSystem :=
  {| path_parent := fun p => removelast p;
     path_stem := fun _ => "detector";
     path_absolute := fun p => "/" :: p;
     read_bytes := fun p =>
       if bool_decide (p = ["capsules"; "detector.cap"]) then Ok []
       else Raise (OtherException "FileNotFoundError" "No such file or directory") |}.

End MoreSamples.

(** * Properties *)

(** ** The version gate on a few strings *)

Example gate_0_2 : check_compatibility "c" "0.2" = Ok (0, 2).
Proof. reflexivity. Qed.

Example gate_00_02 : check_compatibility "c" "00.02" = Ok (0, 2).
Proof. reflexivity. Qed.

Example gate_1_0 :
  exists m, check_compatibility "c" "1.0" = Raise (IncompatibleCapsuleError (PyStr "c") m).
Proof. eexists. reflexivity. Qed.

Example gate_0_3 :
  exists m, check_compatibility "c" "0.3" = Raise (IncompatibleCapsuleError (PyStr "c") m).
Proof. eexists. reflexivity. Qed.

Example gate_bad :
  exists m, check_compatibility "c" " 0.2" = Raise (InvalidCapsuleError (PyStr "c") m).
Proof. eexists. reflexivity. Qed.

(** ** The pattern and the number conversion *)

Lemma span_spec (p : ascii -> bool) (s a b : string) :
  span p s = (a, b) ->
  s = a +:+ b /\ string_forall p a = true
  /\ match b with
     | EmptyString => True
     | String c _ => p c = false
     end.
Proof.
  revert a b. induction s as [|c s IH]; intros a b; simpl.
  - intros [= <- <-]. auto.
  - destruct (p c) eqn:Hc.
    + destruct (span p s) as [a' b'] eqn:Hs. intros [= <- <-].
      destruct (IH a' b' eq_refl) as (-> & Ha & Hb).
      simpl. rewrite Hc, Ha. auto.
    + intros [= <- <-]. simpl. auto.
Qed.

Lemma span_digits_dot (a rest : string) :
  string_forall is_digit a = true ->
  span is_digit (a +:+ String "."%char rest) = (a, String "."%char rest).
Proof.
  induction a as [|c a IH]; simpl; [reflexivity|].
  intros [Hc Ha]%andb_true_iff. rewrite Hc, (IH Ha). reflexivity.
Qed.


(** The matcher returns groups exactly on the strings of the pattern. *)
Lemma semver_fullmatch_sound (s g1 g2 : string) :
  semver_fullmatch s = Some (g1, g2) ->
  s = g1 +:+ "." +:+ g2
  /\ nonempty g1 = true /\ nonempty g2 = true
  /\ string_forall is_digit g1 = true /\ string_forall is_digit g2 = true.
Proof.
  unfold semver_fullmatch.
  destruct (span is_digit s) as [a rest] eqn:Hspan.
  destruct (span_spec _ _ _ _ Hspan) as (-> & Ha & _).
  destruct rest as [|c rest]; [discriminate|].
  destruct (Ascii.eqb_spec c "."%char) as [->|Hne].
  - destruct (nonempty a && nonempty rest && string_forall is_digit rest)
      eqn:Hconds; [|discriminate].
    intros [= <- <-].
    apply andb_true_iff in Hconds as [[H1 H2]%andb_true_iff H3].
    auto.
  - destruct c as [[] [] [] [] [] [] [] []]; try discriminate.
    congruence.
Qed.



Lemma digit_value_range (c : ascii) :
  is_digit c = true -> 0 <= digit_value c <= 9.
Proof.
  unfold is_digit, digit_value.
  intros [H1 H2]%andb_true_iff.
  apply Nat.leb_le in H1, H2. lia.
Qed.

Lemma int_digits_total (s : string) (acc : Z) :
  string_forall is_digit s = true -> 0 <= acc ->
  exists z, int_digits acc s = Some z /\ 0 <= z.
Proof.
  revert acc. induction s as [|c s IH]; simpl; intros acc.
  - eauto.
  - intros [Hc Hs]%andb_true_iff Hacc. rewrite Hc.
    apply IH; [assumption|].
    pose proof (digit_value_range c Hc). lia.
Qed.

(** [int] converts a group of the pattern unless the group is longer than
    [int_max_str_digits]; only then is the handler of [ValueError] entered. *)
Lemma py_int_total (s : string) :
  nonempty s = true -> string_forall is_digit s = true ->
  (String.length s <= int_max_str_digits)%nat ->
  exists z, py_int s = Some z /\ 0 <= z.
Proof.
  intros Hn Hd Hl. unfold py_int. rewrite Hn.
  apply Nat.leb_le in Hl. rewrite Hl.
  apply int_digits_total; [assumption|lia].
Qed.

Lemma py_int_too_long (s : string) :
  (int_max_str_digits < String.length s)%nat -> py_int s = None.
Proof.
  intros Hl. unfold py_int.
  apply Nat.leb_gt in Hl. rewrite Hl, andb_false_r. reflexivity.
Qed.

Lemma py_int_length (s : string) (v : Z) :
  py_int s = Some v -> (String.length s <= int_max_str_digits)%nat.
Proof.
  unfold py_int.
  destruct (nonempty s); [|discriminate].
  destruct (Nat.leb_spec (String.length s) int_max_str_digits);
    [auto|discriminate].
Qed.

Lemma parse_version_of_match (s g1 g2 : string) :
  semver_fullmatch s = Some (g1, g2) ->
  (String.length g1 <= int_max_str_digits)%nat ->
  (String.length g2 <= int_max_str_digits)%nat ->
  exists major minor,
    parse_version s = Some (major, minor) /\ 0 <= major /\ 0 <= minor.
Proof.
  intros Hm L1 L2. unfold parse_version. rewrite Hm.
  destruct (semver_fullmatch_sound _ _ _ Hm) as (_ & N1 & N2 & D1 & D2).
  destruct (py_int_total g1 N1 D1 L1) as (a & -> & Ha).
  destruct (py_int_total g2 N2 D2 L2) as (b & -> & Hb).
  eauto.
Qed.

(** What the gate does with a string of the pattern: its two groups are
    converted, or one of them is too long for [int] and the handler of
    line 87 fails on its own unbound names. *)
Lemma gate_groups (s g1 g2 : string) :
  semver_fullmatch s = Some (g1, g2) ->
  (exists major minor,
      parse_version s = Some (major, minor) /\ 0 <= major /\ 0 <= minor
      /\ (String.length g1 <= int_max_str_digits)%nat
      /\ (String.length g2 <= int_max_str_digits)%nat)
  \/ (parse_version s = None
      /\ ((int_max_str_digits < String.length g1)%nat
          \/ (int_max_str_digits < String.length g2)%nat)
      /\ forall capsule_name,
          check_compatibility capsule_name s
          = Raise (UnboundLocalError "major")).
Proof.
  intros Hm.
  destruct (Nat.le_gt_cases (String.length g1) int_max_str_digits) as [L1|L1];
    [destruct (Nat.le_gt_cases (String.length g2) int_max_str_digits)
       as [L2|L2]|].
  - left. destruct (parse_version_of_match _ _ _ Hm L1 L2)
      as (a & b & Hp & Ha & Hb).
    exists a, b. auto.
  - right. unfold parse_version, check_compatibility. rewrite Hm.
    rewrite (py_int_too_long g2 L2).
    destruct (py_int g1); auto.
  - right. unfold parse_version, check_compatibility. rewrite Hm.
    rewrite (py_int_too_long g1 L1). auto.
Qed.

(** ** The version gate on its own *)

Lemma check_compatibility_unmatched (capsule_name s : string) :
  semver_fullmatch s = None ->
  exists msg,
    check_compatibility capsule_name s
    = Raise (InvalidCapsuleError (PyStr capsule_name) msg).
Proof.
  intros Hm. unfold check_compatibility. rewrite Hm. eauto.
Qed.

Lemma check_compatibility_major (capsule_name s : string) (major minor : Z) :
  parse_version s = Some (major, minor) ->
  major <> MAJOR_COMPATIBLE_VERSION ->
  exists msg,
    check_compatibility capsule_name s
    = Raise (IncompatibleCapsuleError (PyStr capsule_name) msg).
Proof.
  unfold parse_version, check_compatibility.
  destruct (semver_fullmatch s) as [[g1 g2]|]; [|discriminate].
  destruct (py_int g1) as [a|]; [|discriminate].
  destruct (py_int g2) as [b|]; [|discriminate].
  intros [= -> ->] Hne.
  apply Z.eqb_neq in Hne. rewrite Hne. simpl. eauto.
Qed.

Lemma check_compatibility_minor_new (capsule_name s : string) (minor : Z) :
  parse_version s = Some (MAJOR_COMPATIBLE_VERSION, minor) ->
  minor > MINOR_COMPATIBLE_VERSION ->
  exists msg,
    check_compatibility capsule_name s
    = Raise (IncompatibleCapsuleError (PyStr capsule_name) msg).
Proof.
  unfold parse_version, check_compatibility.
  destruct (semver_fullmatch s) as [[g1 g2]|]; [|discriminate].
  destruct (py_int g1) as [a|]; [|discriminate].
  destruct (py_int g2) as [b|]; [|discriminate].
  intros [= -> ->] Hgt.
  rewrite Z.eqb_refl. simpl.
  apply Z.gtb_gt in Hgt. rewrite Hgt. eauto.
Qed.

Lemma check_compatibility_accepts (capsule_name s : string) (minor : Z) :
  parse_version s = Some (MAJOR_COMPATIBLE_VERSION, minor) ->
  minor <= MINOR_COMPATIBLE_VERSION ->
  check_compatibility capsule_name s = Ok (MAJOR_COMPATIBLE_VERSION, minor).
Proof.
  unfold parse_version, check_compatibility.
  destruct (semver_fullmatch s) as [[g1 g2]|]; [|discriminate].
  destruct (py_int g1) as [a|]; [|discriminate].
  destruct (py_int g2) as [b|]; [|discriminate].
  intros [= -> ->] Hle.
  rewrite Z.eqb_refl. simpl.
  destruct (Z.gtb_spec minor MINOR_COMPATIBLE_VERSION); [lia|reflexivity].
Qed.

(** ** The version gate inside the load *)

Section LoadProperties.

Context {R : Runtime}.

Lemma load_unfold data source_path key inference_mode w o :
  open_capsule (capsule_module_name data) data key = Ok o ->
  load_capsule_from_bytes data source_path key inference_mode w
  = match check_compatibility (capsule_module_name data)
            (compatibility_version o) with
    | Ok _ =>
        load_after_gate (capsule_module_name data)
          (default_source_path data source_path) o inference_mode w
    | Raise e => (Raise e, w)
    end.
Proof.
  intros Ho. unfold load_capsule_from_bytes, mbind', mlift. rewrite Ho.
  destruct (check_compatibility _ _); reflexivity.
Qed.

(** C1. When the compatibility string of a capsule parses as
    [(major, minor)]: a major different from the host's makes the load raise
    [IncompatibleCapsuleError] whatever the minor is; with the host's major,
    a minor up to the host's passes the gate and the load goes on with the
    execution of the capsule's code, and a larger minor makes the load raise
    [IncompatibleCapsuleError]. *)
Theorem version_gate_decision data source_path key inference_mode w o
    (major minor : Z) :
  open_capsule (capsule_module_name data) data key = Ok o ->
  parse_version (compatibility_version o) = Some (major, minor) ->
  (major <> MAJOR_COMPATIBLE_VERSION ->
   exists msg,
     load_capsule_from_bytes data source_path key inference_mode w
     = (Raise (IncompatibleCapsuleError
                 (PyStr (capsule_module_name data)) msg), w))
  /\ (major = MAJOR_COMPATIBLE_VERSION ->
      minor <= MINOR_COMPATIBLE_VERSION ->
      check_compatibility (capsule_module_name data) (compatibility_version o)
      = Ok (major, minor)
      /\ load_capsule_from_bytes data source_path key inference_mode w
         = load_after_gate (capsule_module_name data)
             (default_source_path data source_path) o inference_mode w)
  /\ (major = MAJOR_COMPATIBLE_VERSION ->
      minor > MINOR_COMPATIBLE_VERSION ->
      exists msg,
        load_capsule_from_bytes data source_path key inference_mode w
        = (Raise (IncompatibleCapsuleError
                    (PyStr (capsule_module_name data)) msg), w)).
Proof.
  intros Ho Hp. rewrite (load_unfold _ _ _ _ _ _ Ho).
  split; [|split].
  - intros Hne.
    destruct (check_compatibility_major (capsule_module_name data) _ _ _ Hp Hne)
      as [msg ->].
    eauto.
  - intros -> Hle.
    rewrite (check_compatibility_accepts _ _ _ Hp Hle). auto.
  - intros -> Hgt.
    destruct (check_compatibility_minor_new (capsule_module_name data) _ _ Hp Hgt)
      as [msg ->].
    eauto.
Qed.


End LoadProperties.

Lemma version_gate_decision_witness :
  @open_capsule (Sample.good_host "0.2")
     (@capsule_module_name (Sample.good_host "0.2") []) [] None
  = Ok (Sample.opened_as "0.2")
  /\ parse_version "0.2" = Some (0, 2)
  /\ @load_capsule_from_bytes (Sample.good_host "0.2") [] None None true
       Sample.world0
     = @load_after_gate (Sample.good_host "0.2")
         "capsule_e3b0c442" ["/"; "capsule_e3b0c442"]
         (Sample.opened_as "0.2") true Sample.world0.
Proof.
  split; [reflexivity|]. split; [reflexivity|].
  refine (proj2 (proj1 (proj2
    (@version_gate_decision (Sample.good_host "0.2") [] None None true
       Sample.world0 (Sample.opened_as "0.2") 0 2 _ _)) _ _)).
  - reflexivity.
  - reflexivity.
  - reflexivity.
  - unfold MINOR_COMPATIBLE_VERSION. lia.
Defined.



(** ** Which exceptions the validation can end in *)

Lemma getattr_raise (v : pyval) (a : string) (e : exn) :
  getattr v a = Raise e -> e = no_attribute v a.
Proof.
  destruct v; simpl; try (intros [= <-]; reflexivity).
  - destruct (String.eqb a "__code__"); intros [= <-]; reflexivity.
  - destruct (String.eqb a "__bases__"); intros [= <-]; reflexivity.
  - destruct (assoc a attrs); intros [= <-]; reflexivity.
Qed.

Lemma quiet_getattr (v : pyval) (a : string) : quiet (getattr v a).
Proof. intros e ->%getattr_raise. reflexivity. Qed.

Lemma quiet_co_varnames (v : pyval) : quiet (co_varnames v).
Proof. intros e. destruct v; simpl; intros [= <-]; reflexivity. Qed.

Lemma quiet_co_argcount (v : pyval) : quiet (co_argcount v).
Proof. intros e. destruct v; simpl; intros [= <-]; reflexivity. Qed.

Lemma quiet_fullmatch_word (v : pyval) : quiet (fullmatch_word v).
Proof. intros e. destruct v; simpl; intros [= <-]; reflexivity. Qed.

Lemma quiet_class_in (c : pyclass) (v : pyval) : quiet (class_in c v).
Proof. intros e. destruct v; simpl; intros [= <-]; reflexivity. Qed.

Lemma quiet_dict_keys (v : pyval) : quiet (dict_keys v).
Proof. intros e. destruct v; simpl; intros [= <-]; reflexivity. Qed.

Lemma quiet_subscript0 (v : pyval) : quiet (subscript0 v).
Proof.
  intros e. destruct v as [| | |s|xs| | | | |]; simpl;
    try (intros [= <-]; reflexivity).
  - destruct s; intros [= <-]; reflexivity.
  - destruct xs; intros [= <-]; reflexivity.
Qed.

Lemma quiet_ok {A} (a : A) : quiet (Ok a).
Proof. intros e [=]. Qed.

Lemma quiet_bind {A B} (r : result A) (k : A -> result B) :
  quiet r -> (forall a, quiet (k a)) -> quiet (rbind r k).
Proof.
  intros Hr Hk e. destruct r as [a|e']; simpl.
  - apply Hk.
  - intros [= <-]. apply Hr. reflexivity.
Qed.

Lemma quiet_check_arg_names func correct ignore :
  quiet (check_arg_names func correct ignore).
Proof.
  unfold check_arg_names.
  repeat (apply quiet_bind;
          [first [apply quiet_getattr | apply quiet_co_varnames
                 | apply quiet_co_argcount] | intros ?]).
  apply quiet_ok.
Qed.

Lemma named_quiet {A} (n : pyval) (r : result A) : quiet r -> named n r.
Proof. intros Hq e He Hi. rewrite (Hq e He) in Hi. discriminate. Qed.

Lemma named_bind {A B} (n : pyval) (r : result A) (k : A -> result B) :
  quiet r -> (forall a, named n (k a)) -> named n (rbind r k).
Proof.
  intros Hr Hk e. destruct r as [a|e']; simpl.
  - apply Hk.
  - intros [= <-] Hi. rewrite (Hr e' eq_refl) in Hi. discriminate.
Qed.

Lemma named_seq {A B} (n : pyval) (r : result A) (k : result B) :
  named n r -> named n k -> named n (rbind r (fun _ => k)).
Proof.
  intros Hr Hk e. destruct r as [a|e']; simpl.
  - apply Hk.
  - intros [= <-]. apply Hr. reflexivity.
Qed.

Lemma invalid_named {A} (capsule n : pyval) (message : string) :
  getattr capsule "name" = Ok n ->
  @invalid A capsule message = Raise (InvalidCapsuleError n message).
Proof. intros Hn. unfold invalid. rewrite Hn. reflexivity. Qed.

Lemma invalid_not_ok {A} (capsule : pyval) (message : string) (a : A) :
  @invalid A capsule message <> Ok a.
Proof.
  unfold invalid. destruct (getattr capsule "name"); simpl; discriminate.
Qed.

Lemma named_invalid {A} (capsule n : pyval) (message : string) :
  getattr capsule "name" = Ok n -> named n (@invalid A capsule message).
Proof.
  intros Hn e. rewrite (invalid_named _ _ _ Hn). intros [= <-] _. eauto.
Qed.

(** One step through a check: a bind on a quiet primitive, a branch, or one
    of the two ways a check ends. *)
Ltac named_step :=
  match goal with
  | |- named _ (Ok _) => apply named_quiet, quiet_ok
  | |- named _ (invalid _ _) => apply named_invalid; assumption
  | |- named _ (rbind (if ?b then _ else _) _) =>
      apply named_bind;
      [destruct b; [apply quiet_ok|];
       apply quiet_bind; [apply quiet_getattr|intros ?; apply quiet_class_in]
      |intros ?]
  | |- named _ (rbind _ _) =>
      apply named_bind;
      [first [apply quiet_getattr | apply quiet_fullmatch_word
             | apply quiet_check_arg_names | apply quiet_subscript0
             | apply quiet_dict_keys]
      |intros ?]
  | |- named _ (if ?b then _ else _) => destruct b
  | |- named _ (match ?v with PyNone => _ | _ => _ end) => destruct v
  end.

(** The checks raise nothing that [except Exception] would let through. *)

Lemma plain_getattr (v : pyval) (a : string) : plain (getattr v a).
Proof. intros e ->%getattr_raise. reflexivity. Qed.

Lemma plain_co_varnames (v : pyval) : plain (co_varnames v).
Proof. intros e. destruct v; simpl; intros [= <-]; reflexivity. Qed.

Lemma plain_co_argcount (v : pyval) : plain (co_argcount v).
Proof. intros e. destruct v; simpl; intros [= <-]; reflexivity. Qed.

Lemma plain_fullmatch_word (v : pyval) : plain (fullmatch_word v).
Proof. intros e. destruct v; simpl; intros [= <-]; reflexivity. Qed.

Lemma plain_class_in (c : pyclass) (v : pyval) : plain (class_in c v).
Proof. intros e. destruct v; simpl; intros [= <-]; reflexivity. Qed.

Lemma plain_dict_keys (v : pyval) : plain (dict_keys v).
Proof. intros e. destruct v; simpl; intros [= <-]; reflexivity. Qed.

Lemma plain_subscript0 (v : pyval) : plain (subscript0 v).
Proof.
  intros e. destruct v as [| | |s|xs| | | | |]; simpl;
    try (intros [= <-]; reflexivity).
  - destruct s; intros [= <-]; reflexivity.
  - destruct xs; intros [= <-]; reflexivity.
Qed.

Lemma plain_ok {A} (a : A) : plain (Ok a).
Proof. intros e [=]. Qed.

Lemma plain_bind {A B} (r : result A) (k : A -> result B) :
  plain r -> (forall a, plain (k a)) -> plain (rbind r k).
Proof.
  intros Hr Hk e. destruct r as [a|e']; simpl.
  - apply Hk.
  - intros [= <-]. apply Hr. reflexivity.
Qed.

Lemma plain_invalid {A} (capsule : pyval) (message : string) :
  plain (@invalid A capsule message).
Proof.
  unfold invalid. apply plain_bind; [apply plain_getattr|].
  intros n e [= <-]. reflexivity.
Qed.

Lemma plain_check_arg_names func correct ignore :
  plain (check_arg_names func correct ignore).
Proof.
  unfold check_arg_names.
  repeat (apply plain_bind;
          [first [apply plain_getattr | apply plain_co_varnames
                 | apply plain_co_argcount] | intros ?]).
  apply plain_ok.
Qed.

Ltac plain_step :=
  match goal with
  | |- plain (Ok _) => apply plain_ok
  | |- plain (invalid _ _) => apply plain_invalid
  | |- plain (rbind (if ?b then _ else _) _) =>
      apply plain_bind;
      [destruct b; [apply plain_ok|];
       apply plain_bind; [apply plain_getattr|intros ?; apply plain_class_in]
      |intros ?]
  | |- plain (rbind _ _) =>
      apply plain_bind;
      [first [apply plain_getattr | apply plain_fullmatch_word
             | apply plain_check_arg_names | apply plain_subscript0
             | apply plain_dict_keys]
      |intros ?]
  | |- plain (if ?b then _ else _) => destruct b
  | |- plain (match ?v with PyNone => _ | _ => _ end) => destruct v
  end.

Lemma plain_check_unwanted_attributes capsule (unwanted : list string) :
  plain (check_unwanted_attributes capsule unwanted).
Proof.
  induction unwanted as [|a rest IH]; simpl; [apply plain_ok|].
  destruct (getattr capsule a) as [x|e] eqn:Ha; simpl.
  - destruct (@invalid unit capsule _) as [u|e] eqn:Hi; [exact IH|].
    destruct (is_AttributeError e); [exact IH|].
    intros e' [= <-]. exact (plain_invalid _ _ _ Hi).
  - apply getattr_raise in Ha. subst e. simpl. exact IH.
Qed.

Lemma plain_validate_body capsule : plain (validate_body capsule).
Proof.
  unfold validate_body.
  repeat (apply plain_bind; [|intros _]);
    try apply plain_check_unwanted_attributes;
    unfold check_name, check_class_attributes, check_backend_loader,
      check_backends, check_stream_state, check_encoder_threshold;
    repeat plain_step.
Qed.

Section Named.

Variables (capsule n : pyval).
Hypothesis Hname : getattr capsule "name" = Ok n.

Lemma named_check_name : named n (check_name capsule).
Proof using Hname. unfold check_name. repeat named_step. Qed.

Lemma named_check_class_attributes : named n (check_class_attributes capsule).
Proof using Hname. unfold check_class_attributes. repeat named_step. Qed.

Lemma named_check_unwanted_attributes (unwanted : list string) :
  named n (check_unwanted_attributes capsule unwanted).
Proof using Hname.
  induction unwanted as [|a rest IH]; simpl.
  - apply named_quiet, quiet_ok.
  - destruct (getattr capsule a) as [x|e] eqn:Ha; simpl.
    + rewrite (invalid_named _ _ _ Hname). simpl.
      intros e [= <-] _. eauto.
    + apply getattr_raise in Ha. subst e. simpl. exact IH.
Qed.

Lemma named_check_backend_loader : named n (check_backend_loader capsule).
Proof using Hname. unfold check_backend_loader. repeat named_step. Qed.

Lemma named_check_backends : named n (check_backends capsule).
Proof using Hname. unfold check_backends. repeat named_step. Qed.

Lemma named_check_stream_state : named n (check_stream_state capsule).
Proof using Hname. unfold check_stream_state. repeat named_step. Qed.

Lemma named_check_encoder_threshold :
  named n (check_encoder_threshold capsule).
Proof using Hname. unfold check_encoder_threshold. repeat named_step. Qed.

Lemma named_validate_body : named n (validate_body capsule).
Proof using Hname.
  unfold validate_body.
  repeat (apply named_seq;
          [first [apply named_check_name | apply named_check_class_attributes
                 | apply named_check_unwanted_attributes
                 | apply named_check_backend_loader
                 | apply named_check_backends
                 | apply named_check_stream_state]|]).
  apply named_check_encoder_threshold.
Qed.

(** With a readable name the validation returns or raises
    [InvalidCapsuleError] under that name: the three handlers leave no other
    exception. *)
Lemma validate_outcome :
  _validate_capsule capsule = Ok tt
  \/ exists msg, _validate_capsule capsule = Raise (InvalidCapsuleError n msg).
Proof using Hname.
  unfold _validate_capsule.
  destruct (validate_body capsule) as [[]|e] eqn:Hbody; [left; reflexivity|].
  right. destruct (is_InvalidCapsuleError e) eqn:Hi.
  - destruct (named_validate_body e Hbody Hi) as [msg ->]. eauto.
  - rewrite (plain_validate_body _ _ Hbody).
    destruct (is_AttributeError e);
      rewrite (invalid_named _ _ _ Hname); eauto.
Qed.

End Named.

(** ** When the validation accepts *)

Lemma validate_ok_iff (capsule : pyval) :
  _validate_capsule capsule = Ok tt <-> validate_body capsule = Ok tt.
Proof.
  unfold _validate_capsule.
  destruct (validate_body capsule) as [[]|e]; [tauto|].
  split; [|discriminate].
  destruct (is_InvalidCapsuleError e); [discriminate|].
  destruct (is_AttributeError e);
    [intros H; destruct (invalid_not_ok _ _ _ H)|].
  destruct (is_Exception e); [|discriminate].
  intros H; destruct (invalid_not_ok _ _ _ H).
Qed.

Lemma validate_body_ok (capsule : pyval) :
  validate_body capsule = Ok tt
  <-> check_name capsule = Ok tt
      /\ check_class_attributes capsule = Ok tt
      /\ check_unwanted_attributes capsule unwanted_attributes = Ok tt
      /\ check_backend_loader capsule = Ok tt
      /\ check_backends capsule = Ok tt
      /\ check_stream_state capsule = Ok tt
      /\ check_encoder_threshold capsule = Ok tt.
Proof.
  unfold validate_body.
  destruct (check_name capsule) as [[]|]; cbn [rbind]; [|intuition congruence].
  destruct (check_class_attributes capsule) as [[]|]; cbn [rbind];
    [|intuition congruence].
  destruct (check_unwanted_attributes capsule unwanted_attributes) as [[]|];
    cbn [rbind]; [|intuition congruence].
  destruct (check_backend_loader capsule) as [[]|]; cbn [rbind];
    [|intuition congruence].
  destruct (check_backends capsule) as [[]|]; cbn [rbind]; [|intuition congruence].
  destruct (check_stream_state capsule) as [[]|]; cbn [rbind];
    [|intuition congruence].
  intuition congruence.
Qed.

Lemma filter_nothing_ignored (names : list string) :
  List.filter (fun n => negb (existsb (String.eqb n) [])) names = names.
Proof.
  induction names as [|x l IH]; [reflexivity|].
  simpl in *. f_equal. exact IH.
Qed.

(** With no [ignore] list the helper compares the declared parameters as
    they stand. *)
Lemma check_arg_names_function names argcount correct :
  check_arg_names (PyFunction names argcount) correct None
  = Ok (bool_decide (declared_parameters names argcount = correct)).
Proof.
  unfold check_arg_names, declared_parameters. simpl.
  rewrite filter_nothing_ignored. reflexivity.
Qed.

Lemma check_backend_loader_function capsule names argcount :
  getattr capsule "backend_loader" = Ok (PyFunction names argcount) ->
  check_backend_loader capsule = Ok tt
  <-> declared_parameters names argcount = ["capsule_files"; "device"].
Proof.
  intros Hl. unfold check_backend_loader. rewrite Hl. cbn [rbind].
  rewrite check_arg_names_function. cbn [rbind callable all forallb andb].
  case_bool_decide as Hd.
  - tauto.
  - split; [|tauto]. intros H. destruct (invalid_not_ok _ _ _ H).
Qed.

(** C3, as the code has it. For a capsule whose [backend_loader] is a
    function (a lambda or a method) and that passes every other check, the
    validation accepts exactly when the parameters the function declares,
    none of them set aside, are [capsule_files] then [device]. *)
Theorem loader_accepted_iff capsule names argcount :
  getattr capsule "backend_loader" = Ok (PyFunction names argcount) ->
  valid_apart_from_loader capsule ->
  _validate_capsule capsule = Ok tt
  <-> declared_parameters names argcount = ["capsule_files"; "device"].
Proof.
  intros Hl (H1 & H2 & H3 & H4 & H5 & H6).
  rewrite validate_ok_iff, validate_body_ok.
  rewrite <- (check_backend_loader_function capsule names argcount Hl).
  tauto.
Qed.

Lemma loader_accepted_iff_witness :
  _validate_capsule Sample.capsule = Ok tt
  <-> declared_parameters ["capsule_files"; "device"] 2
      = ["capsule_files"; "device"].
Proof.
  apply (loader_accepted_iff Sample.capsule ["capsule_files"; "device"] 2).
  - reflexivity.
  - repeat split; reflexivity.
Defined.

(** C3, against the specification's wording: a loader declared as a method, with
    [self] before [capsule_files] and [device], has the required names once
    the receiver is set aside, and is rejected all the same. *)
Lemma loader_with_self_rejected :
  getattr Sample.method_capsule "backend_loader" = Ok Sample.method_loader
  /\ valid_apart_from_loader Sample.method_capsule
  /\ without_receiver
       (declared_parameters ["self"; "capsule_files"; "device"] 3)
     = ["capsule_files"; "device"]
  /\ _validate_capsule Sample.method_capsule
     = Raise (InvalidCapsuleError (PyStr "detector_person")
                ("The capsule's backend_loader has an invalid configuration!"
                 +:+ nl +:+ "Loader Assertions: [True, False]")).
Proof.
  repeat split; reflexivity.
Qed.

Lemma class_in_bases (target : pyclass) (bs : list pyclass) :
  existsb (fun x => is_class x target) (map PyClass bs)
  = existsb (fun b => class_is b target) bs.
Proof.
  induction bs as [|b l IH]; simpl; [reflexivity|]. now rewrite IH.
Qed.

Lemma check_stream_state_class capsule cls :
  getattr capsule "stream_state" = Ok (PyClass cls) ->
  check_stream_state capsule = Ok tt
  <-> base_or_direct_subclass cls BaseStreamState = true.
Proof.
  intros Hs. unfold check_stream_state, base_or_direct_subclass.
  rewrite Hs. simpl.
  destruct (class_is cls BaseStreamState) eqn:Hc; simpl; [tauto|].
  rewrite class_in_bases.
  destruct (existsb _ (cls_bases cls)); simpl; [tauto|].
  split; [|discriminate]. intros H. destruct (invalid_not_ok _ _ _ H).
Qed.

(** C4, as the code has it. For a capsule whose [stream_state] is a class
    and that passes every other check, the validation accepts exactly when
    that class is [BaseStreamState] or names it among its direct bases. *)
Theorem stream_state_accepted_iff capsule cls :
  getattr capsule "stream_state" = Ok (PyClass cls) ->
  valid_apart_from_stream_state capsule ->
  _validate_capsule capsule = Ok tt
  <-> base_or_direct_subclass cls BaseStreamState = true.
Proof.
  intros Hs (H1 & H2 & H3 & H4 & H5 & H6).
  rewrite validate_ok_iff, validate_body_ok.
  rewrite <- (check_stream_state_class capsule cls Hs).
  tauto.
Qed.

Lemma stream_state_accepted_iff_witness :
  _validate_capsule Sample.counter_capsule = Ok tt
  <-> base_or_direct_subclass Sample.CounterState BaseStreamState = true.
Proof.
  apply stream_state_accepted_iff.
  - reflexivity.
  - repeat split; reflexivity.
Defined.

(** C4, against the specification's wording: a class two steps below
    [BaseStreamState] is a subtype of it, and is rejected. *)
Lemma indirect_stream_state_rejected :
  getattr Sample.tracker_capsule "stream_state"
  = Ok (PyClass Sample.TrackerState)
  /\ valid_apart_from_stream_state Sample.tracker_capsule
  /\ issubclass Sample.TrackerState BaseStreamState = true
  /\ _validate_capsule Sample.tracker_capsule
     = Raise (InvalidCapsuleError (PyStr "detector_person")
                ("The capsule's stream_state has an invalid configuration!"
                 +:+ nl +:+ "Stream State Assertions: [False]")).
Proof.
  repeat split; reflexivity.
Qed.

(** ** Attribute tables under update *)

Lemma assoc_set_same {A} (k : string) (x : A) (l : list (string * A)) :
  assoc k (assoc_set k x l) = Some x.
Proof.
  induction l as [|[k' y] l IH]; simpl.
  - now rewrite String.eqb_refl.
  - destruct (String.eqb k k') eqn:E; simpl.
    + now rewrite String.eqb_refl.
    + now rewrite E.
Qed.

Lemma assoc_set_other {A} (k k' : string) (x : A) (l : list (string * A)) :
  k <> k' -> assoc k' (assoc_set k x l) = assoc k' l.
Proof.
  intros Hne. induction l as [|[k0 y] l IH]; simpl.
  - destruct (String.eqb_spec k' k); [congruence|reflexivity].
  - destruct (String.eqb_spec k k0) as [->|Hk]; simpl.
    + destruct (String.eqb_spec k' k0); [congruence|reflexivity].
    + destruct (String.eqb k' k0); [reflexivity|exact IH].
Qed.

Lemma assoc_set_has_key {A} (k : string) (x : A) (l : list (string * A)) :
  existsb (String.eqb k) (map fst (assoc_set k x l)) = true.
Proof.
  induction l as [|[k' y] l IH]; simpl.
  - now rewrite String.eqb_refl.
  - destruct (String.eqb k k') eqn:E; simpl.
    + now rewrite String.eqb_refl.
    + now rewrite E.
Qed.

Lemma getattr_setattr_other (v : pyval) (a b : string) (x : pyval) :
  a <> b -> getattr (setattr v a x) b = getattr v b.
Proof.
  intros Hne. destruct v; try reflexivity.
  simpl. now rewrite assoc_set_other.
Qed.

(** Only an instance has attributes besides [__code__] and [__bases__]. *)
Lemma getattr_setattr_same (v : pyval) (a : string) (x y : pyval) :
  String.eqb a "__code__" = false -> String.eqb a "__bases__" = false ->
  getattr v a = Ok y ->
  getattr (setattr v a x) a = Ok x.
Proof.
  intros Hc Hb. destruct v; simpl; try discriminate.
  - now rewrite Hc.
  - now rewrite Hb.
  - intros _. now rewrite assoc_set_same.
Qed.

(** Rewriting the reads of a check after [options] was replaced. *)
Ltac other_attributes :=
  repeat match goal with
  | |- context [getattr (setattr ?v "options" ?x) ?b] =>
      rewrite (getattr_setattr_other v "options" b x) by discriminate
  end.

Section OptionsReplaced.

Variables (capsule options' : pyval).

Lemma check_name_setattr :
  check_name (setattr capsule "options" options') = check_name capsule.
Proof. unfold check_name, invalid. other_attributes. reflexivity. Qed.

Lemma check_unwanted_attributes_setattr :
  check_unwanted_attributes (setattr capsule "options" options')
    unwanted_attributes
  = check_unwanted_attributes capsule unwanted_attributes.
Proof.
  unfold unwanted_attributes, check_unwanted_attributes, invalid.
  other_attributes. reflexivity.
Qed.

Lemma check_backend_loader_setattr :
  check_backend_loader (setattr capsule "options" options')
  = check_backend_loader capsule.
Proof. unfold check_backend_loader, invalid. other_attributes. reflexivity. Qed.

Lemma check_backends_setattr :
  check_backends (setattr capsule "options" options')
  = check_backends capsule.
Proof. unfold check_backends, invalid. other_attributes. reflexivity. Qed.

Lemma check_stream_state_setattr :
  check_stream_state (setattr capsule "options" options')
  = check_stream_state capsule.
Proof. unfold check_stream_state, invalid. other_attributes. reflexivity. Qed.

(** A dictionary put in place of [options] keeps the attribute check
    passing. *)
Lemma check_class_attributes_setattr (items : list (string * pyval)) :
  options' = PyDict items ->
  check_class_attributes capsule = Ok tt ->
  check_class_attributes (setattr capsule "options" options') = Ok tt.
Proof.
  intros ->. unfold check_class_attributes, invalid. other_attributes.
  destruct (getattr capsule "name") as [name|]; [|discriminate].
  destruct (getattr capsule "backend_loader") as [loader|]; [|discriminate].
  destruct (getattr capsule "version") as [version|]; [|discriminate].
  destruct (getattr capsule "input_type") as [input|]; [|discriminate].
  destruct (getattr capsule "output_type") as [output|]; [|discriminate].
  destruct (getattr capsule "options") as [options|] eqn:Ho; [|discriminate].
  rewrite (getattr_setattr_same capsule "options" (PyDict items) options
             eq_refl eq_refl Ho).
  cbn [rbind all forallb isinstance_dict].
  destruct (isinstance_str name), (callable loader), (isinstance_int version),
    (isinstance input NodeDescription), (isinstance output NodeDescription);
    cbn [andb]; try discriminate.
  reflexivity.
Qed.

End OptionsReplaced.

(** ** The encoder's threshold and the empty backend list *)

Lemma check_encoder_threshold_missing capsule capability encoded items :
  getattr capsule "capability" = Ok capability ->
  getattr capability "encoded" = Ok encoded ->
  truthy encoded = true ->
  getattr capsule "options" = Ok (PyDict items) ->
  existsb (String.eqb "recognition_threshold") (map fst items) = false ->
  check_encoder_threshold capsule <> Ok tt.
Proof.
  intros Hc He Ht Ho Hk. unfold check_encoder_threshold.
  rewrite Hc. cbn [rbind]. rewrite He. cbn [rbind]. rewrite Ht, Ho.
  cbn [rbind dict_keys]. rewrite Hk. cbn [negb].
  apply invalid_not_ok.
Qed.

Lemma check_encoder_threshold_present capsule capability encoded items x :
  getattr capsule "capability" = Ok capability ->
  getattr capability "encoded" = Ok encoded ->
  getattr capsule "options" = Ok (PyDict items) ->
  check_encoder_threshold
    (with_option capsule items "recognition_threshold" x) = Ok tt.
Proof.
  intros Hc He Ho. unfold check_encoder_threshold, with_option.
  rewrite (getattr_setattr_other capsule "options" "capability") by discriminate.
  rewrite Hc. cbn [rbind]. rewrite He. cbn [rbind].
  destruct (truthy encoded); [|reflexivity].
  rewrite (getattr_setattr_same capsule "options" _ _ eq_refl eq_refl Ho).
  cbn [rbind dict_keys]. rewrite assoc_set_has_key. reflexivity.
Qed.

(** C9. A capsule whose capability says it encodes and whose options lack
    [recognition_threshold] is refused with [InvalidCapsuleError]; if it
    passes every other check, the same capsule with that key added to its
    options is accepted. *)
Theorem encoder_needs_threshold capsule n capability encoded items x :
  getattr capsule "name" = Ok n ->
  getattr capsule "capability" = Ok capability ->
  getattr capability "encoded" = Ok encoded ->
  truthy encoded = true ->
  getattr capsule "options" = Ok (PyDict items) ->
  existsb (String.eqb "recognition_threshold") (map fst items) = false ->
  (exists msg,
     _validate_capsule capsule = Raise (InvalidCapsuleError n msg))
  /\ (valid_apart_from_threshold capsule ->
      _validate_capsule capsule
      = Raise (InvalidCapsuleError n
                 ("This capsule can encode, but doesn't have a option "
                  +:+ "called " +:+ dquote +:+ "recognition_threshold"
                  +:+ dquote +:+ "!"))
      /\ _validate_capsule
           (with_option capsule items "recognition_threshold" x) = Ok tt).
Proof.
  intros Hn Hc He Ht Ho Hk.
  pose proof (check_encoder_threshold_missing _ _ _ _ Hc He Ht Ho Hk) as Hno.
  split.
  - destruct (validate_outcome capsule n Hn) as [Hok|Hraise]; [|exact Hraise].
    apply validate_ok_iff, validate_body_ok in Hok. tauto.
  - intros (H1 & H2 & H3 & H4 & H5 & H6). split.
    + unfold _validate_capsule, validate_body.
      rewrite H1, H2, H3, H4, H5, H6. cbn [rbind].
      unfold check_encoder_threshold.
      rewrite Hc. cbn [rbind]. rewrite He. cbn [rbind]. rewrite Ht, Ho.
      cbn [rbind dict_keys]. rewrite Hk. cbn [negb].
      rewrite (invalid_named _ _ _ Hn). reflexivity.
    + apply validate_ok_iff, validate_body_ok. unfold with_option.
      rewrite check_name_setattr, check_unwanted_attributes_setattr,
        check_backend_loader_setattr, check_backends_setattr,
        check_stream_state_setattr.
      repeat split; try assumption.
      * eapply check_class_attributes_setattr; [reflexivity|assumption].
      * eapply check_encoder_threshold_present; eassumption.
Qed.

Lemma encoder_needs_threshold_witness :
  (exists msg,
     _validate_capsule Sample.encoder_capsule
     = Raise (InvalidCapsuleError (PyStr "detector_person") msg))
  /\ _validate_capsule
       (with_option Sample.encoder_capsule [] "recognition_threshold"
          (PyInt 1)) = Ok tt.
Proof.
  pose proof (encoder_needs_threshold Sample.encoder_capsule
                (PyStr "detector_person") (Sample.capability true)
                (PyBool true) [] (PyInt 1)
                eq_refl eq_refl eq_refl eq_refl eq_refl eq_refl) as [H1 H2].
  split; [exact H1|].
  apply H2. repeat split; reflexivity.
Defined.

(** What the validation can raise at all: [InvalidCapsuleError], or the
    [AttributeError] of a capsule whose [name] cannot be read while the
    error is being built. *)
Lemma validate_raises capsule e :
  _validate_capsule capsule = Raise e ->
  is_InvalidCapsuleError e = true \/ e = no_attribute capsule "name".
Proof.
  unfold _validate_capsule.
  destruct (validate_body capsule) as [u|e0] eqn:Hbody; [discriminate|].
  destruct (is_InvalidCapsuleError e0) eqn:Hi.
  - intros [= <-]. left. exact Hi.
  - rewrite (plain_validate_body _ _ Hbody). unfold invalid.
    destruct (getattr capsule "name") as [n|e1] eqn:Hn;
      destruct (is_AttributeError e0); cbn [rbind]; intros [= <-];
      first [left; reflexivity | right; exact (getattr_raise _ _ _ Hn)].
Qed.

(** C10. A capsule whose [backends] is the empty list is never accepted and
    never ends in [IndexError]; with a readable name the validation raises
    [InvalidCapsuleError], and when the checks before the one on backends
    pass, it is the handler for unexpected exceptions that reports the
    failed indexing. *)
Theorem empty_backends_invalid capsule n :
  getattr capsule "name" = Ok n ->
  getattr capsule "backends" = Ok (PyList []) ->
  _validate_capsule capsule <> Ok tt
  /\ (forall m, _validate_capsule capsule <> Raise (IndexError m))
  /\ (exists msg,
        _validate_capsule capsule = Raise (InvalidCapsuleError n msg))
  /\ (valid_up_to_backends capsule ->
      _validate_capsule capsule
      = Raise (InvalidCapsuleError n
                 ("This capsule is invalid for unknown reasons. Error: "
                  +:+ "list index out of range"))).
Proof.
  intros Hn Hb.
  assert (Hcheck : check_backends capsule
                   = Raise (IndexError "list index out of range")).
  { unfold check_backends. rewrite Hb. reflexivity. }
  assert (Hno : _validate_capsule capsule <> Ok tt).
  { intros Hok. apply validate_ok_iff, validate_body_ok in Hok.
    destruct Hok as (_ & _ & _ & _ & Hok & _). congruence. }
  split; [exact Hno|]. split; [|split].
  - intros m Hm. destruct (validate_raises _ _ Hm) as [Hi|Hi]; discriminate.
  - destruct (validate_outcome capsule n Hn) as [Hok|Hraise];
      [contradiction|exact Hraise].
  - intros (H1 & H2 & H3 & H4).
    unfold _validate_capsule, validate_body.
    rewrite H1, H2, H3, H4, Hcheck. cbn [rbind].
    cbn [is_InvalidCapsuleError is_AttributeError exn_str].
    rewrite (invalid_named _ _ _ Hn). reflexivity.
Qed.

Lemma empty_backends_invalid_witness :
  _validate_capsule Sample.no_backend_capsule
  = Raise (InvalidCapsuleError (PyStr "detector_person")
             ("This capsule is invalid for unknown reasons. Error: "
              +:+ "list index out of range")).
Proof.
  refine (proj2 (proj2 (proj2
    (empty_backends_invalid Sample.no_backend_capsule
       (PyStr "detector_person") eq_refl eq_refl))) _).
  repeat split; reflexivity.
Defined.

(** ** Reading the archive *)

Lemma zip_read_in_names (capsule_file : archive) (name : string) :
  in_names name (namelist capsule_file) = true
  <-> is_Some (zip_read capsule_file name).
Proof.
  unfold in_names, namelist.
  induction capsule_file as [|[n content] rest IH]; simpl.
  - split; [discriminate|]. intros [? [=]].
  - rewrite orb_true_iff, IH.
    destruct (zip_read rest name) as [later|].
    + split; eauto.
    + rewrite (String.eqb_sym name n).
      destruct (String.eqb n name).
      * split; eauto.
      * split; [intros [[=]|[? [=]]]|intros [? [=]]].
Qed.

Lemma zip_read_not_in_names (capsule_file : archive) (name : string) :
  in_names name (namelist capsule_file) = false ->
  zip_read capsule_file name = None.
Proof.
  intros Hn. destruct (zip_read capsule_file name) eqn:Hz; [|reflexivity].
  assert (in_names name (namelist capsule_file) = true) as Ht
    by (apply zip_read_in_names; rewrite Hz; eauto).
  congruence.
Qed.

(** What is read is the content of an entry of that name. *)
Lemma zip_read_entry (capsule_file : archive) (name : string) (b : bytes) :
  zip_read capsule_file name = Some b -> In (name, b) capsule_file.
Proof.
  induction capsule_file as [|[n content] rest IH]; simpl; [discriminate|].
  destruct (zip_read rest name) as [later|].
  - intros [= ->]. right. apply IH. reflexivity.
  - destruct (String.eqb_spec n name) as [->|]; [|discriminate].
    intros [= ->]. left. reflexivity.
Qed.

Section ReadEntries.

Context {R : Runtime}.

Lemma read_entries_spec (capsule_file : archive) (names : list string) :
  forall code loaded,
  (forall n, In n names -> is_Some (zip_read capsule_file n)) ->
  exists code' (loaded' : gmap string bytes),
    read_entries capsule_file names code loaded = Ok (code', loaded')
    /\ code' = (if in_names CAPSULE_FILE_NAME names
                then zip_read capsule_file CAPSULE_FILE_NAME else code)
    /\ forall name,
         loaded' !! name
         = if negb (String.eqb name CAPSULE_FILE_NAME) && in_names name names
           then zip_read capsule_file name else loaded !! name.
Proof.
  induction names as [|n rest IH]; intros code loaded Hall.
  - exists code, loaded. simpl. split; [reflexivity|]. split; [reflexivity|].
    intros name. now rewrite andb_false_r.
  - assert (Hrest : forall m, In m rest -> is_Some (zip_read capsule_file m))
      by (intros m Hm; apply Hall; now right).
    destruct (Hall n (or_introl eq_refl)) as [content Hn].
    simpl. destruct (String.eqb_spec n CAPSULE_FILE_NAME) as [->|Hne].
    + rewrite Hn.
      destruct (IH (Some content) loaded Hrest) as (c' & l' & -> & -> & Hl).
      eexists _, l'. split; [reflexivity|]. split.
      * rewrite String.eqb_refl. simpl.
        destruct (in_names CAPSULE_FILE_NAME rest); [exact Hn|reflexivity].
      * intros name. rewrite Hl.
        destruct (String.eqb_spec name CAPSULE_FILE_NAME) as [->|Hname];
          simpl; [reflexivity|].
        now destruct (in_names name rest).
    + rewrite Hn.
      destruct (IH code (<[n := content]> loaded) Hrest)
        as (c' & l' & -> & -> & Hl).
      eexists _, l'. split; [reflexivity|]. split.
      * destruct (String.eqb_spec CAPSULE_FILE_NAME n); [congruence|].
        reflexivity.
      * intros name. rewrite Hl.
        destruct (String.eqb_spec name CAPSULE_FILE_NAME) as [->|Hname];
          simpl.
        -- now rewrite lookup_insert_ne.
        -- destruct (String.eqb_spec name n) as [->|Hnn]; simpl.
           ++ destruct (in_names n rest); [reflexivity|].
              now rewrite lookup_insert_eq.
           ++ destruct (in_names name rest); [reflexivity|].
              now rewrite lookup_insert_ne.
Qed.

(** The loop over the archive's own names: the code is the code entry, and
    [loaded_files] maps every other name to what the archive reads for it. *)
Lemma read_entries_namelist (capsule_file : archive) :
  in_names CAPSULE_FILE_NAME (namelist capsule_file) = true ->
  exists loaded : gmap string bytes,
    read_entries capsule_file (namelist capsule_file) None ∅
    = Ok (zip_read capsule_file CAPSULE_FILE_NAME, loaded)
    /\ forall name, loaded !! name = all_but_code capsule_file name.
Proof.
  intros Hcode.
  destruct (read_entries_spec capsule_file (namelist capsule_file) None ∅)
    as (c' & l' & Hr & -> & Hl).
  { intros n Hin. apply zip_read_in_names. unfold in_names.
    apply existsb_exists. exists n. split; [exact Hin|apply String.eqb_refl]. }
  exists l'. rewrite Hcode in Hr. split; [exact Hr|].
  intros name. rewrite Hl. unfold all_but_code.
  destruct (String.eqb name CAPSULE_FILE_NAME); simpl; [apply lookup_empty|].
  destruct (in_names name (namelist capsule_file)) eqn:Hin; [reflexivity|].
  rewrite lookup_empty. symmetry. now apply zip_read_not_in_names.
Qed.

End ReadEntries.

(** ** From the archive to the constructor *)

Section Orchestration.

Context {R : Runtime}.

(** What a successful [open_capsule] went through. *)
Lemma open_capsule_inv capsule_name data key o :
  open_capsule capsule_name data key = Ok o ->
  in_names CAPSULE_FILE_NAME (namelist (capsule_file o)) = true
  /\ in_names META_FILE_NAME (namelist (capsule_file o)) = true
  /\ read_entries (capsule_file o) (namelist (capsule_file o)) None ∅
     = Ok (code o, loaded_files o)
  /\ exists meta_bytes meta_text (meta_conf : config)
            (about : gmap string string),
       loaded_files o !! META_FILE_NAME = Some meta_bytes
       /\ decode_utf8 meta_bytes = Ok meta_text
       /\ read_string meta_text = Ok meta_conf
       /\ config_getitem meta_conf "about" = Ok about
       /\ section_getitem meta_conf "about" about
            "api_compatibility_version"
          = Ok (compatibility_version o).
Proof.
  unfold open_capsule.
  destruct (match key with Some k => decrypt k data | None => Ok data end)
    as [data'|]; cbn [rbind]; [|discriminate].
  destruct (ZipFile data') as [af|]; cbn [rbind]; [|discriminate].
  destruct (in_names CAPSULE_FILE_NAME (namelist af)) eqn:Hc;
    cbn [negb]; [|discriminate].
  destruct (in_names META_FILE_NAME (namelist af)) eqn:Hm;
    cbn [negb]; [|discriminate].
  destruct (read_entries af (namelist af) None ∅) as [[c l]|] eqn:Hr;
    cbn [rbind]; [|discriminate].
  destruct (l !! META_FILE_NAME) as [mb|] eqn:Hmb; cbn [rbind]; [|discriminate].
  destruct (decode_utf8 mb) as [mt|] eqn:Hd; cbn [rbind]; [|discriminate].
  destruct (read_string mt) as [mc|] eqn:Hrs; cbn [rbind]; [|discriminate].
  destruct (config_getitem mc "about") as [ab|] eqn:Hab; cbn [rbind];
    [|discriminate].
  destruct (section_getitem mc "about" ab "api_compatibility_version")
    as [v|] eqn:Hv; cbn [rbind]; [|discriminate].
  intros [= <-]. cbn [capsule_file code loaded_files compatibility_version].
  eauto 12.
Qed.

(** An exception of lines 46-76 leaves the load as it is. *)
Lemma load_open_raises data source_path key inference_mode w e :
  open_capsule (capsule_module_name data) data key = Raise e ->
  load_capsule_from_bytes data source_path key inference_mode w = (Raise e, w).
Proof.
  intros Ho. unfold load_capsule_from_bytes, mbind', mlift. now rewrite Ho.
Qed.

Lemma load_after_gate_unfold capsule_name source_path o inference_mode w
    capsule_module w1 build :
  execute_capsule_code capsule_name (capsule_file o) source_path (code o) w
  = (Ok capsule_module, w1) ->
  module_Capsule capsule_module = Some build ->
  load_after_gate capsule_name source_path o inference_mode w
  = (let+ new_capsule := build (loaded_files o) inference_mode in
     validate_or_close new_capsule) w1.
Proof.
  intros He Hb. unfold load_after_gate, mbind' at 1. rewrite He.
  unfold mbind' at 1, instantiate. rewrite Hb. reflexivity.
Qed.

(** C5, as the code has it. After a successful extraction the code is the
    code entry and [loaded_files] holds every entry but the code entry, the
    meta entry among them, each under its name with the bytes the archive
    has for it; that mapping is what the [Capsule] constructor receives as
    [capsule_files]. *)
Theorem loaded_files_are_all_but_code data source_path key inference_mode w o :
  open_capsule (capsule_module_name data) data key = Ok o ->
  (code o = zip_read (capsule_file o) CAPSULE_FILE_NAME /\ is_Some (code o))
  /\ (forall name,
        loaded_files o !! name = all_but_code (capsule_file o) name)
  /\ (forall name b,
        loaded_files o !! name = Some b -> In (name, b) (capsule_file o))
  /\ (exists meta_bytes,
        loaded_files o !! META_FILE_NAME = Some meta_bytes
        /\ zip_read (capsule_file o) META_FILE_NAME = Some meta_bytes)
  /\ (forall v capsule_module w1 build,
        check_compatibility (capsule_module_name data)
          (compatibility_version o) = Ok v ->
        execute_capsule_code (capsule_module_name data) (capsule_file o)
          (default_source_path data source_path) (code o) w
        = (Ok capsule_module, w1) ->
        module_Capsule capsule_module = Some build ->
        load_capsule_from_bytes data source_path key inference_mode w
        = (let+ new_capsule := build (loaded_files o) inference_mode in
           validate_or_close new_capsule) w1).
Proof.
  intros Ho.
  destruct (open_capsule_inv _ _ _ _ Ho)
    as (Hc & Hm & Hr & mb & mt & mc & ab & Hmb & _).
  destruct (read_entries_namelist (capsule_file o) Hc) as (l & Hr' & Hl).
  rewrite Hr in Hr'. injection Hr' as Hcode Hloaded. subst l.
  assert (Hfiles : forall name b,
            loaded_files o !! name = Some b ->
            zip_read (capsule_file o) name = Some b).
  { intros name b. rewrite Hl. unfold all_but_code.
    destruct (String.eqb name CAPSULE_FILE_NAME); [discriminate|auto]. }
  split; [|split; [exact Hl|split; [|split]]].
  - split; [exact Hcode|]. rewrite Hcode. now apply zip_read_in_names.
  - intros name b Hb. apply zip_read_entry, Hfiles, Hb.
  - exists mb. split; [exact Hmb|]. apply Hfiles, Hmb.
  - intros v capsule_module w1 build Hv He Hb.
    rewrite (load_unfold _ _ _ _ _ _ Ho), Hv.
    exact (load_after_gate_unfold _ _ _ _ _ _ _ _ He Hb).
Qed.

(** C6. When the constructor has returned a capsule and the validation
    raises [InvalidCapsuleError], the load calls the capsule's [close] in
    the world the constructor left, and the world the caller gets back is
    the one [close] leaves; once [close] has returned, the exception raised
    is the one the validation raised. *)
Theorem close_before_reraise data source_path key inference_mode w o v
    capsule_module w1 build new_capsule w2 n msg :
  open_capsule (capsule_module_name data) data key = Ok o ->
  check_compatibility (capsule_module_name data) (compatibility_version o)
  = Ok v ->
  execute_capsule_code (capsule_module_name data) (capsule_file o)
    (default_source_path data source_path) (code o) w
  = (Ok capsule_module, w1) ->
  module_Capsule capsule_module = Some build ->
  build (loaded_files o) inference_mode w1 = (Ok new_capsule, w2) ->
  _validate_capsule new_capsule = Raise (InvalidCapsuleError n msg) ->
  snd (load_capsule_from_bytes data source_path key inference_mode w)
  = snd (capsule_close new_capsule w2)
  /\ (forall u,
        fst (capsule_close new_capsule w2) = Ok u ->
        fst (load_capsule_from_bytes data source_path key inference_mode w)
        = Raise (InvalidCapsuleError n msg)).
Proof.
  intros Ho Hv He Hb Hbuild Hval.
  assert (Hload :
    load_capsule_from_bytes data source_path key inference_mode w
    = match capsule_close new_capsule w2 with
      | (Ok _, w3) => (Raise (InvalidCapsuleError n msg), w3)
      | (Raise e, w3) => (Raise e, w3)
      end).
  { rewrite (load_unfold _ _ _ _ _ _ Ho), Hv.
    rewrite (load_after_gate_unfold _ _ _ _ _ _ _ _ He Hb).
    unfold mbind'. rewrite Hbuild.
    unfold validate_or_close. rewrite Hval. cbn [is_InvalidCapsuleError].
    unfold mbind', mraise. reflexivity. }
  rewrite Hload.
  destruct (capsule_close new_capsule w2) as [[u|e] w3]; cbn [fst snd].
  - split; [reflexivity|]. intros _ _. reflexivity.
  - split; [reflexivity|]. intros u [=].
Qed.

End Orchestration.

Lemma loaded_files_are_all_but_code_witness :
  loaded_files (Sample.opened_as "0.2") !! "meta.conf"
  = @all_but_code (Sample.good_host "0.2") Sample.files "meta.conf".
Proof.
  exact (proj1 (proj2
    (@loaded_files_are_all_but_code (Sample.good_host "0.2")
       [] None None true Sample.world0 (Sample.opened_as "0.2") eq_refl))
    "meta.conf").
Defined.

(** C5, against the specification's wording: the meta entry is not one of the
    non-designated entries, and [loaded_files] holds it. *)
Lemma meta_entry_is_loaded :
  @open_capsule (Sample.good_host "0.2") "capsule_e3b0c442" [] None
  = Ok (Sample.opened_as "0.2")
  /\ @non_designated (Sample.good_host "0.2") Sample.files "meta.conf" = None
  /\ loaded_files (Sample.opened_as "0.2") !! "meta.conf"
     = Some Sample.meta_bytes.
Proof.
  repeat split; reflexivity.
Qed.

Lemma close_before_reraise_witness :
  snd (@load_capsule_from_bytes (Sample.host_of Sample.no_backend_capsule)
         [] None None true Sample.world0)
  = snd (Sample.close Sample.no_backend_capsule
           {| sys_meta_path := sys_meta_path Sample.world0;
              resources := ["backend"] |})
  /\ fst (@load_capsule_from_bytes (Sample.host_of Sample.no_backend_capsule)
            [] None None true Sample.world0)
     = Raise (InvalidCapsuleError (PyStr "detector_person")
                ("This capsule is invalid for unknown reasons. Error: "
                 +:+ "list index out of range")).
Proof.
  destruct
    (@close_before_reraise (Sample.host_of Sample.no_backend_capsule)
       [] None None true Sample.world0 (Sample.opened_as "0.2") (0, 2)
       (PyModule "capsule_e3b0c442"
          (Some (Sample.construct_of Sample.no_backend_capsule)))
       Sample.world0 (Sample.construct_of Sample.no_backend_capsule)
       Sample.no_backend_capsule
       {| sys_meta_path := sys_meta_path Sample.world0;
          resources := ["backend"] |}
       (PyStr "detector_person")
       ("This capsule is invalid for unknown reasons. Error: "
        +:+ "list index out of range")
       eq_refl eq_refl eq_refl eq_refl eq_refl eq_refl) as [Hworld Herror].
  split; [exact Hworld|exact (Herror tt eq_refl)].
Defined.

(** ** The resolver on [sys.meta_path] *)

Lemma list_pop_insert {A} (x : A) (l : list A) :
  l <> [] -> list_pop_at 1 (list_insert_at 1 x l) = Some (x, l).
Proof.
  destruct l as [|y l]; [congruence|]. intros _.
  unfold list_pop_at, list_insert_at. simpl. now rewrite drop_0.
Qed.

(** With an empty [sys.meta_path] the resolver lands at index 0 and there is
    no index 1 to take off. *)
Lemma list_pop_insert_empty {A} (x : A) :
  list_pop_at 1 (list_insert_at 1 x []) = None.
Proof. reflexivity. Qed.

Lemma set_meta_path_path (l : list finder) (w : world) :
  sys_meta_path (set_meta_path l w) = l.
Proof. reflexivity. Qed.

Section Resolver.

Context {R : Runtime}.

Lemma execute_capsule_code_some capsule_name af source_path c w :
  sys_meta_path w <> [] ->
  keeps_meta_path
    (compile_exec c (path_join source_path CAPSULE_FILE_NAME) capsule_name) ->
  execute_capsule_code capsule_name af source_path (Some c) w
  = (let '(r, w1) :=
       compile_exec c (path_join source_path CAPSULE_FILE_NAME) capsule_name
         (resolver_active capsule_name af source_path w) in
     (match r with
      | Ok m => Ok m
      | Raise e =>
          Raise (if is_Exception e then execution_failed capsule_name e
                 else e)
      end,
      set_meta_path (sys_meta_path w) w1)).
Proof.
  intros Hne Hkeep.
  unfold execute_capsule_code, mbind', meta_path_insert, try_finally,
    try_except, meta_path_pop, mraise.
  fold (resolver_active capsule_name af source_path w).
  specialize (Hkeep (resolver_active capsule_name af source_path w)).
  destruct (compile_exec c _ capsule_name
              (resolver_active capsule_name af source_path w))
    as [r w1].
  cbn [snd] in Hkeep. unfold resolver_active in Hkeep.
  rewrite set_meta_path_path in Hkeep.
  destruct r as [m|e]; [|destruct (is_Exception e)];
    rewrite Hkeep, (list_pop_insert _ _ Hne); reflexivity.
Qed.

Lemma execute_capsule_code_none capsule_name af source_path w :
  sys_meta_path w <> [] ->
  sys_meta_path
    (snd (execute_capsule_code capsule_name af source_path None w))
  = sys_meta_path w
  /\ exists e,
       fst (execute_capsule_code capsule_name af source_path None w)
       = Raise (execution_failed capsule_name e).
Proof.
  intros Hne.
  unfold execute_capsule_code, mbind', meta_path_insert, try_finally,
    try_except, meta_path_pop, mraise.
  cbn [sys_meta_path set_meta_path is_Exception].
  rewrite (list_pop_insert _ _ Hne). cbn [fst snd sys_meta_path set_meta_path].
  split; [reflexivity|]. eexists. reflexivity.
Qed.

Lemma validate_or_close_keeps new_capsule :
  (forall c, keeps_meta_path (capsule_close c)) ->
  keeps_meta_path (validate_or_close new_capsule).
Proof.
  intros Hclose w. unfold validate_or_close.
  destruct (_validate_capsule new_capsule) as [u|e]; [reflexivity|].
  destruct (is_InvalidCapsuleError e); [|reflexivity].
  unfold mbind', mraise. specialize (Hclose new_capsule w).
  destruct (capsule_close new_capsule w) as [[u|e'] w']; exact Hclose.
Qed.

(** C8, as the code has it. Provided [sys.meta_path] is not empty and the
    capsule's own code does not edit it: the capsule's code runs with the
    resolver at index 1 of [sys.meta_path]; whether the load returns or
    raises, [sys.meta_path] is afterwards what it was before; and an
    exception of the code's compilation or execution comes out as
    [InvalidCapsuleError] when it derives from [Exception], and as it is
    when it does not. *)
Theorem resolver_is_scoped data source_path key inference_mode w :
  plugin_keeps_meta_path R ->
  sys_meta_path w <> [] ->
  sys_meta_path
    (snd (load_capsule_from_bytes data source_path key inference_mode w))
  = sys_meta_path w
  /\ (forall o v c r w1,
        open_capsule (capsule_module_name data) data key = Ok o ->
        check_compatibility (capsule_module_name data)
          (compatibility_version o) = Ok v ->
        code o = Some c ->
        compile_exec c
          (path_join (default_source_path data source_path) CAPSULE_FILE_NAME)
          (capsule_module_name data)
          (resolver_active (capsule_module_name data) (capsule_file o)
             (default_source_path data source_path) w)
        = (r, w1) ->
        match r with
        | Raise e =>
            load_capsule_from_bytes data source_path key inference_mode w
            = (Raise (if is_Exception e
                      then execution_failed (capsule_module_name data) e
                      else e),
               set_meta_path (sys_meta_path w) w1)
        | Ok capsule_module =>
            load_capsule_from_bytes data source_path key inference_mode w
            = (let+ new_capsule :=
                 instantiate capsule_module (loaded_files o) inference_mode in
               validate_or_close new_capsule)
                (set_meta_path (sys_meta_path w) w1)
        end).
Proof.
  intros (Hexec & Hbuild & Hclose) Hne. split.
  - unfold load_capsule_from_bytes, mbind' at 1, mlift.
    destruct (open_capsule (capsule_module_name data) data key) as [o|e];
      [|reflexivity].
    unfold mbind' at 1.
    destruct (check_compatibility _ _) as [v|e]; [|reflexivity].
    unfold load_after_gate, mbind' at 1.
    destruct (code o) as [c|].
    + rewrite (execute_capsule_code_some _ _ _ _ _ Hne (Hexec _ _ _)).
      destruct (compile_exec c _ _ _) as [[m|e] w1] eqn:Hrun; [|reflexivity].
      unfold mbind' at 1, instantiate.
      destruct (module_Capsule m) as [build|] eqn:Hm; [|reflexivity].
      pose proof (Hbuild _ _ _ _ _ _ build (loaded_files o) inference_mode
                    Hrun Hm (set_meta_path (sys_meta_path w) w1)) as Hb.
      destruct (build _ _ _) as [[new_capsule|e] w2]; cbn [snd] in Hb;
        [|exact Hb].
      rewrite (validate_or_close_keeps new_capsule Hclose w2). exact Hb.
    + destruct (execute_capsule_code_none (capsule_module_name data)
                  (capsule_file o) (default_source_path data source_path) w Hne)
        as [Hpath [e He]].
      destruct (execute_capsule_code _ _ _ None w) as [r w1].
      cbn [fst snd] in *. subst r. exact Hpath.
  - intros o v c r w1 Ho Hv Hc Hrun.
    destruct r as [capsule_module|e];
      rewrite (load_unfold _ _ _ _ _ _ Ho), Hv;
      unfold load_after_gate; rewrite Hc; unfold mbind' at 1;
      rewrite (execute_capsule_code_some _ _ _ _ _ Hne (Hexec _ _ _)), Hrun;
      reflexivity.
Qed.

End Resolver.

Lemma sample_host_keeps_meta_path capsule_file meta_conf run :
  keeps_meta_path run ->
  (forall w m w' build files mode,
     run w = (Ok m, w') -> module_Capsule m = Some build ->
     keeps_meta_path (build files mode)) ->
  plugin_keeps_meta_path (Sample.host capsule_file meta_conf run Sample.close).
Proof.
  intros Hrun Hbuild. split; [|split].
  - intros c p n. exact Hrun.
  - intros c p n w m w' build files mode. apply Hbuild.
  - intros c w. reflexivity.
Defined.

Lemma resolver_is_scoped_witness :
  @load_capsule_from_bytes Sample.broken_host [] None None true Sample.world0
  = (Raise (execution_failed "capsule_e3b0c442" Sample.syntax_error),
     Sample.world0).
Proof.
  refine (proj2
    (@resolver_is_scoped Sample.broken_host [] None None true Sample.world0
       _ _)
    (Sample.opened_as "0.2") (0, 2) Sample.code_bytes
    (Raise Sample.syntax_error) _ eq_refl eq_refl eq_refl eq_refl).
  - apply sample_host_keeps_meta_path.
    + intros w. reflexivity.
    + intros w m w' build files mode Hrun. discriminate Hrun.
  - discriminate.
Defined.

(** C8, against the specification's wording. A capsule whose code puts a
    finder of its own first on [sys.meta_path] loads, and [pop(1)] has then
    taken [BuiltinImporter] off and left the resolver on; with an empty
    [sys.meta_path] the load ends in the [IndexError] of [pop(1)], the
    resolver left on; and a capsule whose code calls [sys.exit] makes the
    load raise [SystemExit] as it is. *)
Lemma resolver_left_behind :
  (fst (@load_capsule_from_bytes MoreSamples.meddling_host [] None None true
          Sample.world0)
   = Ok Sample.capsule
   /\ sys_meta_path
        (snd (@load_capsule_from_bytes MoreSamples.meddling_host [] None None
                true Sample.world0))
      = [ MoreSamples.own_finder;
          ZipFinder Sample.files ["/"; "capsule_e3b0c442"] "capsule_e3b0c442";
          BuiltinFinder "FrozenImporter";
          BuiltinFinder "PathFinder" ]
   /\ sys_meta_path Sample.world0
      = [ BuiltinFinder "BuiltinImporter";
          BuiltinFinder "FrozenImporter";
          BuiltinFinder "PathFinder" ])
  /\ (fst (@load_capsule_from_bytes (Sample.good_host "0.2") [] None None
             true MoreSamples.bare_world)
      = Raise (IndexError "pop index out of range")
      /\ sys_meta_path
           (snd (@load_capsule_from_bytes (Sample.good_host "0.2") [] None
                   None true MoreSamples.bare_world))
         = [ ZipFinder Sample.files ["/"; "capsule_e3b0c442"]
               "capsule_e3b0c442" ])
  /\ (@load_capsule_from_bytes MoreSamples.exiting_host [] None None true
        Sample.world0
      = (Raise MoreSamples.system_exit, Sample.world0)
      /\ is_reported_error MoreSamples.system_exit = false).
Proof.
  repeat split; reflexivity.
Qed.

(** ** Exceptions that reach the caller as they are *)

Section MetaDescriptor.

Context {R : Runtime}.

(** Lines 74-76 in full: once the archive is read and [meta.conf] decoded,
    the outcome of [open_capsule] is the parser's exception, the [KeyError]
    of a missing section, or what the lookup of the option answers. *)
Lemma meta_lookup_unprotected capsule_name data key data' af code_bytes
    (loaded : gmap string bytes) meta_bytes meta_text :
  match key with Some k => decrypt k data | None => Ok data end = Ok data' ->
  ZipFile data' = Ok af ->
  in_names CAPSULE_FILE_NAME (namelist af) = true ->
  in_names META_FILE_NAME (namelist af) = true ->
  read_entries af (namelist af) None ∅ = Ok (code_bytes, loaded) ->
  loaded !! META_FILE_NAME = Some meta_bytes ->
  decode_utf8 meta_bytes = Ok meta_text ->
  open_capsule capsule_name data key
  = match read_string meta_text with
    | Raise e => Raise e
    | Ok meta_conf =>
        match _sections meta_conf !! "about" with
        | None => Raise (KeyError "about")
        | Some about =>
            match section_getitem meta_conf "about" about
                    "api_compatibility_version" with
            | Raise e => Raise e
            | Ok v => Ok (Opened af code_bytes loaded v)
            end
        end
    end.
Proof.
  intros Hk Hz Hc Hm Hr Hl Hd. unfold open_capsule.
  rewrite Hk. cbn [rbind]. rewrite Hz. cbn [rbind].
  rewrite Hc, Hm. cbn [negb]. rewrite Hr. cbn [rbind].
  rewrite Hl. cbn [rbind]. rewrite Hd. cbn [rbind].
  destruct (read_string meta_text) as [meta_conf|e]; [|reflexivity].
  cbn [rbind]. unfold config_getitem.
  destruct (_sections meta_conf !! "about") as [about|]; [|reflexivity].
  cbn [rbind].
  destruct (section_getitem meta_conf "about" about
              "api_compatibility_version"); reflexivity.
Qed.

End MetaDescriptor.

(** C2, on the code. A [meta.conf] without the key, without the section, or
    that the INI parser rejects makes the load end in the [KeyError] or the
    parser's own exception: lines 74-76 are under no handler. A capsule
    object without a [name] makes the validation's own handler end in
    [AttributeError]. *)
Theorem meta_errors_reach_caller :
  @load_capsule_from_bytes Sample.no_version_host [] None None true
    Sample.world0
  = (Raise (KeyError "api_compatibility_version"), Sample.world0)
  /\ @load_capsule_from_bytes Sample.no_about_host [] None None true
       Sample.world0
     = (Raise (KeyError "about"), Sample.world0)
  /\ @load_capsule_from_bytes Sample.unparsable_host [] None None true
       Sample.world0
     = (Raise Sample.missing_header, Sample.world0)
  /\ is_reported_error (KeyError "api_compatibility_version") = false
  /\ is_reported_error (KeyError "about") = false
  /\ is_reported_error Sample.missing_header = false
  /\ _validate_capsule Sample.bare_capsule
     = Raise (AttributeError "'Capsule' object has no attribute 'name'").
Proof.
  repeat split; reflexivity.
Qed.

(** * Further properties of the module *)

(** ** The version gate: its outcomes and the numerals it reads *)

(** X1. The gate has four outcomes only: it lets through major 0 with a
    minor from 0 to 2; it raises [InvalidCapsuleError] on a string outside
    the pattern; it raises [IncompatibleCapsuleError]; or, when a group of
    the pattern is longer than the [int_max_str_digits] characters [int]
    converts, the handler of [ValueError] answers and fails on its own
    unbound [major] with [UnboundLocalError]. *)
Theorem check_compatibility_outcome (capsule_name s : string) :
  (exists minor,
     0 <= minor <= MINOR_COMPATIBLE_VERSION
     /\ parse_version s = Some (MAJOR_COMPATIBLE_VERSION, minor)
     /\ check_compatibility capsule_name s
        = Ok (MAJOR_COMPATIBLE_VERSION, minor))
  \/ (semver_fullmatch s = None
      /\ exists msg,
           check_compatibility capsule_name s
           = Raise (InvalidCapsuleError (PyStr capsule_name) msg))
  \/ (exists major minor msg,
        parse_version s = Some (major, minor)
        /\ (major <> MAJOR_COMPATIBLE_VERSION
            \/ minor > MINOR_COMPATIBLE_VERSION)
        /\ check_compatibility capsule_name s
           = Raise (IncompatibleCapsuleError (PyStr capsule_name) msg))
  \/ (exists g1 g2,
        semver_fullmatch s = Some (g1, g2)
        /\ ((int_max_str_digits < String.length g1)%nat
            \/ (int_max_str_digits < String.length g2)%nat)
        /\ check_compatibility capsule_name s
           = Raise (UnboundLocalError "major")).
Proof.
  destruct (semver_fullmatch s) as [[g1 g2]|] eqn:Hm.
  - destruct (gate_groups _ _ _ Hm)
      as [(a & b & Hp & Ha & Hb & _)|(_ & Hlong & Hc)].
    + destruct (Z.eq_dec a MAJOR_COMPATIBLE_VERSION) as [->|Hne].
      * destruct (Z_le_gt_dec b MINOR_COMPATIBLE_VERSION) as [Hle|Hgt].
        -- left. exists b. split; [lia|]. split; [exact Hp|].
           now apply check_compatibility_accepts.
        -- right. right. left.
           destruct (check_compatibility_minor_new capsule_name _ _ Hp Hgt)
             as [msg Hc].
           exists MAJOR_COMPATIBLE_VERSION, b, msg. auto.
      * right. right. left.
        destruct (check_compatibility_major capsule_name _ _ _ Hp Hne)
          as [msg Hc].
        exists a, b, msg. auto.
    + right. right. right. exists g1, g2. auto.
  - right. left. split; [reflexivity|].
    now apply check_compatibility_unmatched.
Qed.

(** The fourth outcome happens: a major of 4301 zeros is of the pattern and
    too long for [int]. *)
Example long_group_reaches_the_handler :
  check_compatibility "capsule_e3b0c442" MoreSamples.long_version
  = Raise (UnboundLocalError "major").
Proof. vm_compute. reflexivity. Qed.

Lemma int_digits_of_uint (d : Decimal.uint) (acc : Z) :
  int_digits acc (NilEmpty.string_of_uint d) = Some (uint_value d acc).
Proof.
  revert acc. induction d; intros acc; simpl; try reflexivity; apply IHd.
Qed.

Lemma uint_value_of_uint_acc (d : Decimal.uint) (p : positive) :
  Z.pos (Pos.of_uint_acc d p) = uint_value d (Z.pos p).
Proof.
  revert p. induction d; intros p; simpl; try reflexivity;
    rewrite IHd; f_equal; lia.
Qed.

Lemma uint_value_of_uint (d : Decimal.uint) :
  Z.of_N (Pos.of_uint d) = uint_value d 0.
Proof.
  induction d; simpl; try reflexivity; try exact IHd;
    apply uint_value_of_uint_acc.
Qed.

Lemma int_digits_all_digits (s : string) (acc v : Z) :
  int_digits acc s = Some v -> string_forall is_digit s = true.
Proof.
  revert acc. induction s as [|c s IH]; intros acc; simpl; [reflexivity|].
  destruct (is_digit c); [|discriminate]. apply IH.
Qed.

Lemma string_of_uint_nonempty (d : Decimal.uint) :
  nonempty (NilZero.string_of_uint d) = true.
Proof. destruct d; reflexivity. Qed.

Lemma py_int_string_of_uint (d : Decimal.uint) :
  (String.length (NilZero.string_of_uint d) <= int_max_str_digits)%nat ->
  py_int (NilZero.string_of_uint d) = Some (Z.of_N (Pos.of_uint d)).
Proof.
  intros Hl. unfold py_int.
  apply Nat.leb_le in Hl. rewrite Hl.
  rewrite string_of_uint_nonempty, uint_value_of_uint.
  destruct d; try apply int_digits_of_uint. reflexivity.
Qed.

(** [int] reads back the decimal numeral of a number that is not negative,
    as long as the numeral is within its limit of digits. *)
Lemma py_int_repr (z : Z) :
  0 <= z -> (String.length (repr_Z z) <= int_max_str_digits)%nat ->
  py_int (repr_Z z) = Some z.
Proof.
  intros Hz. unfold repr_Z.
  pose proof (DecimalZ.of_to z) as Hback.
  destruct z as [|p|p]; [| |lia]; simpl in *.
  - reflexivity.
  - intros Hl. rewrite (py_int_string_of_uint _ Hl). f_equal.
    unfold Z.of_uint in Hback. exact Hback.
Qed.

Lemma semver_fullmatch_groups (a b : string) :
  nonempty a = true -> nonempty b = true ->
  string_forall is_digit a = true -> string_forall is_digit b = true ->
  semver_fullmatch (a +:+ "." +:+ b) = Some (a, b).
Proof.
  intros Na Nb Da Db. unfold semver_fullmatch.
  change ("." +:+ b) with (String "."%char b).
  rewrite (span_digits_dot a b Da). now rewrite Na, Nb, Db.
Qed.

Lemma py_int_digits (s : string) (v : Z) :
  py_int s = Some v -> nonempty s = true /\ string_forall is_digit s = true.
Proof.
  unfold py_int. destruct (nonempty s); [|discriminate].
  destruct (String.length s <=? int_max_str_digits)%nat; [|discriminate].
  intros H. split; [reflexivity|]. now apply int_digits_all_digits in H.
Qed.

(** X2. Two numbers that are not negative, each of at most
    [int_max_str_digits] decimal digits, written in decimal with a dot
    between them as the messages of the gate print them, are a
    compatibility string that parses back to these two numbers. *)
Theorem version_numerals_parse_back (major minor : Z) :
  0 <= major -> 0 <= minor ->
  (String.length (repr_Z major) <= int_max_str_digits)%nat ->
  (String.length (repr_Z minor) <= int_max_str_digits)%nat ->
  parse_version (repr_Z major +:+ "." +:+ repr_Z minor)
  = Some (major, minor).
Proof.
  intros Ha Hb La Lb.
  pose proof (py_int_repr major Ha La) as Pa.
  pose proof (py_int_repr minor Hb Lb) as Pb.
  destruct (py_int_digits _ _ Pa) as [Na Da].
  destruct (py_int_digits _ _ Pb) as [Nb Db].
  unfold parse_version.
  rewrite (semver_fullmatch_groups _ _ Na Nb Da Db), Pa, Pb. reflexivity.
Qed.

Lemma version_numerals_parse_back_witness :
  parse_version "12.5" = Some (12, 5).
Proof.
  refine (version_numerals_parse_back 12 5 _ _ _ _);
    try lia; apply Nat.leb_le; vm_compute; reflexivity.
Defined.

(** ** Failures before the version gate *)

Section EarlyFailures.

Context {R : Runtime}.

(** X3. An archive that lacks the code entry makes the load raise
    [InvalidCapsuleError] naming that file, and one that has it but lacks
    the meta entry makes it raise [InvalidCapsuleError] naming the meta
    file; nothing of the process is touched. *)
Theorem missing_entry_is_invalid data source_path key inference_mode w
    data' capsule_file :
  match key with Some k => decrypt k data | None => Ok data end = Ok data' ->
  ZipFile data' = Ok capsule_file ->
  (in_names CAPSULE_FILE_NAME (namelist capsule_file) = false ->
   load_capsule_from_bytes data source_path key inference_mode w
   = (Raise (InvalidCapsuleError (PyStr (capsule_module_name data))
               ("Missing file " +:+ CAPSULE_FILE_NAME)), w))
  /\ (in_names CAPSULE_FILE_NAME (namelist capsule_file) = true ->
      in_names META_FILE_NAME (namelist capsule_file) = false ->
      load_capsule_from_bytes data source_path key inference_mode w
      = (Raise (InvalidCapsuleError (PyStr (capsule_module_name data))
                  ("Missing file " +:+ META_FILE_NAME)), w)).
Proof.
  intros Hk Hz. split.
  - intros Hc. apply load_open_raises. unfold open_capsule.
    rewrite Hk. cbn [rbind]. rewrite Hz. cbn [rbind]. now rewrite Hc.
  - intros Hc Hm. apply load_open_raises. unfold open_capsule.
    rewrite Hk. cbn [rbind]. rewrite Hz. cbn [rbind]. now rewrite Hc, Hm.
Qed.

(** X4. An exception of the decryption, or of the archive reader on the
    decrypted bytes, is what the load raises, as it is; when there is no
    key the archive reader is given the bytes themselves. *)
Theorem undecryptable_or_unreadable data source_path key inference_mode w e :
  (match key with Some k => decrypt k data | None => Ok data end = Raise e ->
   load_capsule_from_bytes data source_path key inference_mode w
   = (Raise e, w))
  /\ (forall data',
        match key with Some k => decrypt k data | None => Ok data end
        = Ok data' ->
        ZipFile data' = Raise e ->
        load_capsule_from_bytes data source_path key inference_mode w
        = (Raise e, w))
  /\ (key = None ->
      ZipFile data = Raise e ->
      load_capsule_from_bytes data source_path key inference_mode w
      = (Raise e, w)).
Proof.
  split; [|split].
  - intros Hk. apply load_open_raises. unfold open_capsule. now rewrite Hk.
  - intros data' Hk Hz. apply load_open_raises. unfold open_capsule.
    rewrite Hk. cbn [rbind]. now rewrite Hz.
  - intros -> Hz. apply load_open_raises. unfold open_capsule.
    cbn [rbind]. now rewrite Hz.
Qed.

End EarlyFailures.

Lemma missing_entry_is_invalid_witness :
  @load_capsule_from_bytes
     (MoreSamples.host_with_files MoreSamples.files_without_code)
     [] None None true Sample.world0
  = (Raise (InvalidCapsuleError (PyStr "capsule_e3b0c442")
              "Missing file capsule.py"), Sample.world0)
  /\ @load_capsule_from_bytes
       (MoreSamples.host_with_files MoreSamples.files_without_meta)
       [] None None true Sample.world0
     = (Raise (InvalidCapsuleError (PyStr "capsule_e3b0c442")
                 "Missing file meta.conf"), Sample.world0).
Proof.
  split.
  - exact (proj1
      (@missing_entry_is_invalid
         (MoreSamples.host_with_files MoreSamples.files_without_code)
         [] None None true Sample.world0 [] MoreSamples.files_without_code
         eq_refl eq_refl) eq_refl).
  - exact (proj2
      (@missing_entry_is_invalid
         (MoreSamples.host_with_files MoreSamples.files_without_meta)
         [] None None true Sample.world0 [] MoreSamples.files_without_meta
         eq_refl eq_refl) eq_refl eq_refl).
Defined.

Lemma undecryptable_or_unreadable_witness :
  @load_capsule_from_bytes MoreSamples.wrong_key_host [] None
     (Some "secret") true Sample.world0
  = (Raise MoreSamples.bad_key, Sample.world0)
  /\ @load_capsule_from_bytes MoreSamples.not_a_zip_host [] None None true
       Sample.world0
     = (Raise MoreSamples.bad_zip, Sample.world0).
Proof.
  split.
  - exact (proj1
      (@undecryptable_or_unreadable MoreSamples.wrong_key_host [] None
         (Some "secret") true Sample.world0 MoreSamples.bad_key) eq_refl).
  - exact (proj2 (proj2
      (@undecryptable_or_unreadable MoreSamples.not_a_zip_host [] None
         None true Sample.world0 MoreSamples.bad_zip)) eq_refl eq_refl).
Defined.

(** ** Every outcome of the validation *)

Lemma validate_nameless capsule e :
  getattr capsule "name" = Raise e ->
  _validate_capsule capsule = Raise (no_attribute capsule "name").
Proof.
  intros Hn. pose proof (getattr_raise _ _ _ Hn) as ->.
  unfold _validate_capsule, validate_body, check_name. rewrite Hn.
  cbn [rbind no_attribute is_InvalidCapsuleError is_AttributeError].
  unfold invalid. rewrite Hn. reflexivity.
Qed.

(** X5. For an object whose attribute reads answer a value or raise
    [AttributeError], which is every [pyval] (an object with a property
    that raises another exception is not one), the validation returns, or
    raises [InvalidCapsuleError] under the object's own [name], or, when
    [name] cannot be read, raises the [AttributeError] of that read; it
    raises nothing else. *)
Theorem validation_outcomes (capsule : pyval) :
  match getattr capsule "name" with
  | Ok n =>
      _validate_capsule capsule = Ok tt
      \/ exists msg,
           _validate_capsule capsule = Raise (InvalidCapsuleError n msg)
  | Raise _ =>
      exists msg, _validate_capsule capsule = Raise (AttributeError msg)
  end.
Proof.
  destruct (getattr capsule "name") as [n|e] eqn:Hn.
  - exact (validate_outcome capsule n Hn).
  - rewrite (validate_nameless capsule e Hn). unfold no_attribute. eauto.
Qed.

Lemma string_exists_forall (p : ascii -> bool) (s : string) :
  string_exists (fun c => negb (p c)) s = negb (string_forall p s).
Proof.
  induction s as [|c s IH]; simpl; [reflexivity|].
  rewrite IH. now destruct (p c).
Qed.

(** Outside ASCII no character is a word character. *)
Lemma is_word_char_ascii (c : ascii) :
  is_word_char c = true -> (nat_of_ascii c < 128)%nat.
Proof.
  unfold is_word_char, is_digit. intros H.
  repeat (apply orb_true_iff in H as [H|H]);
    repeat (apply andb_true_iff in H as [? H]);
    repeat match goal with
    | X : (_ <=? _)%nat = true |- _ => apply Nat.leb_le in X
    | X : (_ =? _)%nat = true |- _ => apply Nat.eqb_eq in X
    end; lia.
Qed.

Lemma beyond_ascii_not_word (s : string) :
  string_exists (fun c => (128 <=? nat_of_ascii c)%nat) s = true ->
  string_forall is_word_char s = false.
Proof.
  induction s as [|c s IH]; cbn [string_exists string_forall];
    [discriminate|].
  intros [Hc|Hs]%orb_true_iff.
  - destruct (is_word_char c) eqn:Hwc; [|reflexivity].
    apply is_word_char_ascii in Hwc. apply Nat.leb_le in Hc. lia.
  - rewrite (IH Hs). apply andb_false_r.
Qed.

(** X6. A capsule whose name is a string that is empty or holds a character
    other than an ASCII letter, a digit or the underscore (any character
    beyond ASCII among them) is refused by the first check, with the
    message about capsule names. *)
Theorem bad_name_is_refused capsule (s : string) :
  getattr capsule "name" = Ok (PyStr s) ->
  s = ""
  \/ string_exists (fun c => negb (is_word_char c)) s = true
  \/ string_exists (fun c => (128 <=? nat_of_ascii c)%nat) s = true ->
  _validate_capsule capsule
  = Raise (InvalidCapsuleError (PyStr s)
             ("Capsule names must only contain alphanumeric characters and "
              +:+ "underscores")).
Proof.
  intros Hn Hbad.
  assert (Hw : nonempty s && string_forall is_word_char s = false).
  { destruct Hbad as [->|[Hx|Hx]]; [reflexivity| |].
    - rewrite string_exists_forall in Hx.
      apply negb_true_iff in Hx. rewrite Hx. apply andb_false_r.
    - rewrite (beyond_ascii_not_word s Hx). apply andb_false_r. }
  unfold _validate_capsule, validate_body, check_name.
  rewrite Hn. cbn [rbind fullmatch_word]. rewrite Hw.
  rewrite (invalid_named _ _ _ Hn). reflexivity.
Qed.

Lemma bad_name_is_refused_witness :
  _validate_capsule MoreSamples.dashed_capsule
  = Raise (InvalidCapsuleError (PyStr "detector-person")
             ("Capsule names must only contain alphanumeric characters and "
              +:+ "underscores")).
Proof.
  apply (bad_name_is_refused MoreSamples.dashed_capsule "detector-person").
  - reflexivity.
  - right. left. reflexivity.
Defined.

(** X7. A capsule whose name is not a string is refused through the handler
    for unexpected exceptions: the error carries that name and the text
    about unknown reasons, followed by what the pattern match reported. *)
Theorem non_string_name_is_refused capsule (n : pyval) :
  getattr capsule "name" = Ok n ->
  isinstance_str n = false ->
  exists detail,
    _validate_capsule capsule
    = Raise (InvalidCapsuleError n
               ("This capsule is invalid for unknown reasons. Error: "
                +:+ detail)).
Proof.
  intros Hn Hs.
  unfold _validate_capsule, validate_body, check_name.
  rewrite Hn. cbn [rbind].
  assert (Hf : fullmatch_word n
               = Raise (TypeError "expected string or bytes-like object"))
    by (destruct n; [reflexivity..|discriminate| | | | | |]; reflexivity).
  rewrite Hf.
  cbn [rbind is_InvalidCapsuleError is_AttributeError exn_str].
  rewrite (invalid_named _ _ _ Hn). eauto.
Qed.

Lemma non_string_name_is_refused_witness :
  exists detail,
    _validate_capsule MoreSamples.numbered_capsule
    = Raise (InvalidCapsuleError (PyInt 7)
               ("This capsule is invalid for unknown reasons. Error: "
                +:+ detail)).
Proof.
  apply (non_string_name_is_refused MoreSamples.numbered_capsule (PyInt 7));
    reflexivity.
Defined.

(** ** What an accepted capsule is known to have *)

(** X8. A capsule that still has a [backend_config] attribute, and whose
    name and class attributes are in order, is refused as carrying a
    leftover of a previous API version. *)
Theorem leftover_attribute_is_refused capsule n x :
  getattr capsule "name" = Ok n ->
  check_name capsule = Ok tt ->
  check_class_attributes capsule = Ok tt ->
  getattr capsule "backend_config" = Ok x ->
  _validate_capsule capsule
  = Raise (InvalidCapsuleError n
             ("The capsule has leftover attributes from a previous "
              +:+ "OpenVisionCapsules API version. Attribute name: "
              +:+ "backend_config")).
Proof.
  intros Hn H1 H2 Hx.
  unfold _validate_capsule, validate_body. rewrite H1, H2. cbn [rbind].
  unfold unwanted_attributes. cbn [check_unwanted_attributes].
  rewrite Hx. cbn [rbind]. rewrite (invalid_named _ _ _ Hn).
  reflexivity.
Qed.

Lemma leftover_attribute_is_refused_witness :
  _validate_capsule MoreSamples.stale_capsule
  = Raise (InvalidCapsuleError (PyStr "detector_person")
             ("The capsule has leftover attributes from a previous "
              +:+ "OpenVisionCapsules API version. Attribute name: "
              +:+ "backend_config")).
Proof.
  apply (leftover_attribute_is_refused MoreSamples.stale_capsule
           (PyStr "detector_person") (PyDict []));
    reflexivity.
Defined.

Lemma check_name_inv capsule :
  check_name capsule = Ok tt ->
  exists s, getattr capsule "name" = Ok (PyStr s) /\ word_name s = true.
Proof.
  unfold check_name, word_name.
  destruct (getattr capsule "name") as [n|] eqn:Hn; [|discriminate].
  cbn [rbind]. destruct n; try discriminate. cbn [rbind fullmatch_word].
  destruct (nonempty s && string_forall is_word_char s) eqn:Hw.
  - eauto.
  - intros H. destruct (invalid_not_ok _ _ _ H).
Qed.

(** With a name that can be read, the probe for a leftover attribute passes
    only when the attribute is absent. *)
Lemma check_unwanted_inv capsule n :
  getattr capsule "name" = Ok n ->
  check_unwanted_attributes capsule unwanted_attributes = Ok tt ->
  getattr capsule "backend_config"
  = Raise (no_attribute capsule "backend_config").
Proof.
  intros Hn. unfold unwanted_attributes. cbn [check_unwanted_attributes].
  destruct (getattr capsule "backend_config") as [x|e] eqn:Hx.
  - cbn [rbind]. rewrite (invalid_named _ _ _ Hn).
    cbn [is_AttributeError]. discriminate.
  - intros _. now rewrite (getattr_raise _ _ _ Hx).
Qed.

Lemma check_class_attributes_inv capsule :
  check_class_attributes capsule = Ok tt ->
  exists name loader version input output items,
    getattr capsule "name" = Ok name
    /\ isinstance_str name = true
    /\ getattr capsule "backend_loader" = Ok loader
    /\ callable loader = true
    /\ getattr capsule "version" = Ok version
    /\ isinstance_int version = true
    /\ getattr capsule "input_type" = Ok input
    /\ isinstance input NodeDescription = true
    /\ getattr capsule "output_type" = Ok output
    /\ isinstance output NodeDescription = true
    /\ getattr capsule "options" = Ok (PyDict items).
Proof.
  unfold check_class_attributes.
  destruct (getattr capsule "name") as [name|]; [|discriminate].
  destruct (getattr capsule "backend_loader") as [loader|]; [|discriminate].
  destruct (getattr capsule "version") as [version|]; [|discriminate].
  destruct (getattr capsule "input_type") as [input|]; [|discriminate].
  destruct (getattr capsule "output_type") as [output|]; [|discriminate].
  destruct (getattr capsule "options") as [options|]; [|discriminate].
  cbn [rbind all forallb].
  destruct (isinstance_str name) eqn:E1, (callable loader) eqn:E2,
    (isinstance_int version) eqn:E3,
    (isinstance input NodeDescription) eqn:E4,
    (isinstance output NodeDescription) eqn:E5,
    (isinstance_dict options) eqn:E6;
    cbn [andb]; try (intros H; destruct (invalid_not_ok _ _ _ H)).
  intros _. destruct options; try discriminate.
  exists name, loader, version, input, output, items. auto 12.
Qed.

(** X9. A capsule the validation accepts has a name that is a non-empty
    string of ASCII letters, digits and underscores, a callable
    [backend_loader], an integer [version], an [input_type] and an
    [output_type] that are instances of [NodeDescription], a dictionary as
    [options], and no [backend_config] attribute. *)
Theorem accepted_capsule_attributes capsule :
  _validate_capsule capsule = Ok tt ->
  exists s loader version input output items,
    getattr capsule "name" = Ok (PyStr s)
    /\ word_name s = true
    /\ getattr capsule "backend_loader" = Ok loader
    /\ callable loader = true
    /\ getattr capsule "version" = Ok version
    /\ isinstance_int version = true
    /\ getattr capsule "input_type" = Ok input
    /\ isinstance input NodeDescription = true
    /\ getattr capsule "output_type" = Ok output
    /\ isinstance output NodeDescription = true
    /\ getattr capsule "options" = Ok (PyDict items)
    /\ (forall x, getattr capsule "backend_config" <> Ok x).
Proof.
  intros Hok. apply validate_ok_iff, validate_body_ok in Hok.
  destruct Hok as (H1 & H2 & H3 & _).
  destruct (check_name_inv _ H1) as (s & Hn & Hw).
  destruct (check_class_attributes_inv _ H2)
    as (name & loader & version & input & output & items
        & Hn' & _ & Hl & Cl & Hv & Iv & Hi & Ii & Ho & Io & Hopt).
  exists s, loader, version, input, output, items.
  pose proof (check_unwanted_inv _ _ Hn H3) as Hu.
  repeat (split; [assumption|]). intros x Hx. congruence.
Qed.

Lemma accepted_capsule_attributes_witness :
  exists s loader version input output items,
    getattr Sample.capsule "name" = Ok (PyStr s)
    /\ word_name s = true
    /\ getattr Sample.capsule "backend_loader" = Ok loader
    /\ callable loader = true
    /\ getattr Sample.capsule "version" = Ok version
    /\ isinstance_int version = true
    /\ getattr Sample.capsule "input_type" = Ok input
    /\ isinstance input NodeDescription = true
    /\ getattr Sample.capsule "output_type" = Ok output
    /\ isinstance output NodeDescription = true
    /\ getattr Sample.capsule "options" = Ok (PyDict items)
    /\ (forall x, getattr Sample.capsule "backend_config" <> Ok x).
Proof.
  apply (accepted_capsule_attributes Sample.capsule). reflexivity.
Defined.

Lemma check_backend_loader_inv capsule :
  check_backend_loader capsule = Ok tt ->
  exists loader names argcount,
    getattr capsule "backend_loader" = Ok loader
    /\ callable loader = true
    /\ getattr loader "__code__" = Ok (PyCode names argcount)
    /\ declared_parameters names argcount = ["capsule_files"; "device"].
Proof.
  unfold check_backend_loader, check_arg_names.
  destruct (getattr capsule "backend_loader") as [loader|]; [|discriminate].
  cbn [rbind].
  destruct (getattr loader "__code__") as [code|] eqn:Hcode; [|discriminate].
  cbn [rbind].
  destruct code; try discriminate. cbn [rbind co_varnames co_argcount].
  rewrite filter_nothing_ignored. cbn [all forallb].
  destruct (callable loader) eqn:Hc; cbn [andb];
    [|intros H; destruct (invalid_not_ok _ _ _ H)].
  case_bool_decide as Hd; cbn [andb];
    [|intros H; destruct (invalid_not_ok _ _ _ H)].
  intros _. exists loader, co_varnames0, co_argcount0. auto.
Qed.

Lemma check_backends_iff capsule backends :
  getattr capsule "backends" = Ok backends ->
  check_backends capsule = Ok tt
  <-> backends = PyNone \/ first_backend_sound backends.
Proof.
  intros Hb. unfold check_backends, first_backend_sound. rewrite Hb.
  cbn [rbind]. split.
  - intros H.
    destruct backends; [left; reflexivity|right..];
      (destruct (subscript0 _) as [fb|] eqn:Hs;
       cbn [rbind] in H; [|discriminate];
       destruct (getattr fb "batch_predict") as [bp|] eqn:H1;
       cbn [rbind] in H; [|discriminate];
       destruct (getattr fb "process_frame") as [pf|] eqn:H2;
       cbn [rbind] in H; [|discriminate];
       destruct (getattr fb "close") as [cl|] eqn:H3;
       cbn [rbind all forallb] in H; [|discriminate];
       destruct (callable bp) eqn:C1, (callable pf) eqn:C2,
         (callable cl) eqn:C3, (isinstance fb BaseBackend) eqn:C4;
       cbn [andb] in H;
       try (destruct (invalid_not_ok _ _ _ H));
       exists fb, bp, pf, cl; auto 10).
  - intros [->|(b & bp & pf & cl & Hs & H1 & H2 & H3 & C1 & C2 & C3 & C4)];
      [reflexivity|].
    destruct backends; try (simpl in Hs; discriminate);
      rewrite Hs; cbn [rbind]; rewrite H1; cbn [rbind]; rewrite H2;
      cbn [rbind]; rewrite H3; cbn [rbind all forallb];
      rewrite C1, C2, C3, C4; reflexivity.
Qed.

(** X10. The [backend_loader] of an accepted capsule is callable and has a
    code object whose declared parameters are [capsule_files] and
    [device]. *)
Theorem accepted_capsule_loader capsule :
  _validate_capsule capsule = Ok tt ->
  exists loader names argcount,
    getattr capsule "backend_loader" = Ok loader
    /\ callable loader = true
    /\ getattr loader "__code__" = Ok (PyCode names argcount)
    /\ declared_parameters names argcount = ["capsule_files"; "device"].
Proof.
  intros Hok. apply validate_ok_iff, validate_body_ok in Hok.
  destruct Hok as (_ & _ & _ & H4 & _).
  exact (check_backend_loader_inv _ H4).
Qed.

Lemma accepted_capsule_loader_witness :
  exists loader names argcount,
    getattr Sample.capsule "backend_loader" = Ok loader
    /\ callable loader = true
    /\ getattr loader "__code__" = Ok (PyCode names argcount)
    /\ declared_parameters names argcount = ["capsule_files"; "device"].
Proof.
  apply (accepted_capsule_loader Sample.capsule). reflexivity.
Defined.

(** X11. For a capsule that passes every other check, the validation
    accepts exactly when [backends] is [None], in which case no backend is
    looked at, or its first element can be taken, has callable
    [batch_predict], [process_frame] and [close], and is an instance of
    [BaseBackend]. *)
Theorem backends_accepted_iff capsule backends :
  getattr capsule "backends" = Ok backends ->
  valid_apart_from_backends capsule ->
  _validate_capsule capsule = Ok tt
  <-> backends = PyNone \/ first_backend_sound backends.
Proof.
  intros Hb (H1 & H2 & H3 & H4 & H5 & H6).
  rewrite validate_ok_iff, validate_body_ok.
  rewrite <- (check_backends_iff capsule backends Hb).
  tauto.
Qed.

Lemma backends_accepted_iff_witness :
  _validate_capsule MoreSamples.inspection_capsule = Ok tt
  <-> PyNone = PyNone \/ first_backend_sound PyNone.
Proof.
  apply (backends_accepted_iff MoreSamples.inspection_capsule PyNone).
  - reflexivity.
  - repeat split; reflexivity.
Defined.

(** Rewriting the reads of [c] into reads of [c'] where the two objects
    agree. *)
Ltac same_reads H c :=
  repeat match goal with
  | |- context [getattr c ?a] => rewrite (H a) by discriminate
  end.

(** X12. The validation looks at the first backend only: two capsules that
    differ in nothing but the backends after the first get the same
    verdict. *)
Theorem later_backends_not_inspected capsule capsule' b rest rest' :
  same_attributes_but "backends" capsule capsule' ->
  getattr capsule "backends" = Ok (PyList (b :: rest)) ->
  getattr capsule' "backends" = Ok (PyList (b :: rest')) ->
  _validate_capsule capsule = _validate_capsule capsule'.
Proof.
  intros Hsame Hb Hb'.
  unfold _validate_capsule, validate_body, check_name, check_class_attributes,
    unwanted_attributes, check_backend_loader, check_backends,
    check_stream_state, check_encoder_threshold.
  cbn [check_unwanted_attributes]. unfold invalid.
  same_reads Hsame capsule. rewrite Hb, Hb'. reflexivity.
Qed.

Lemma later_backends_not_inspected_witness :
  _validate_capsule MoreSamples.two_backends
  = _validate_capsule MoreSamples.odd_second_backend.
Proof.
  apply (later_backends_not_inspected MoreSamples.two_backends
           MoreSamples.odd_second_backend Sample.backend
           [Sample.backend] [PyInt 0]).
  - intros a Ha. unfold MoreSamples.two_backends,
      MoreSamples.odd_second_backend.
    rewrite !getattr_setattr_other by congruence. reflexivity.
  - reflexivity.
  - reflexivity.
Defined.

(** ** The helper [check_arg_names] *)

(** X13. Only the declared parameters are compared: the local variables
    that follow them in [co_varnames] have no part in the answer. *)
Theorem check_arg_names_ignores_locals (params locals correct : list string)
    (ignore : option (list string)) :
  check_arg_names (PyFunction (params ++ locals) (length params))
    correct ignore
  = check_arg_names (PyFunction params (length params)) correct ignore.
Proof.
  unfold check_arg_names. cbn [getattr String.eqb Ascii.eqb Bool.eqb rbind
    co_varnames co_argcount].
  rewrite take_app_length, firstn_all. reflexivity.
Qed.

(** X14. A name that is on the [ignore] list is taken out wherever it
    stands, so the helper never answers [True] when that name is also
    among the names asked for. *)
Theorem ignored_name_cannot_be_required func (correct ignore : list string)
    (x : string) :
  In x correct -> In x ignore ->
  check_arg_names func correct (Some ignore) <> Ok true.
Proof.
  intros Hc Hi. unfold check_arg_names.
  destruct (getattr func "__code__") as [code|]; [|discriminate].
  cbn [rbind].
  destruct (co_varnames code) as [names|]; [|discriminate]. cbn [rbind].
  destruct (co_argcount code) as [n|]; [|discriminate]. cbn [rbind].
  intros [= Hd]. apply bool_decide_eq_true in Hd.
  rewrite <- Hd in Hc. apply filter_In in Hc as [_ Hx].
  apply negb_true_iff in Hx.
  assert (existsb (String.eqb x) ignore = true); [|congruence].
  apply existsb_exists. exists x. split; [exact Hi|apply String.eqb_refl].
Qed.

Lemma ignored_name_cannot_be_required_witness :
  check_arg_names Sample.method_loader ["self"; "capsule_files"; "device"]
    (Some ["self"]) <> Ok true.
Proof.
  apply (ignored_name_cannot_be_required Sample.method_loader
           ["self"; "capsule_files"; "device"] ["self"] "self").
  - left. reflexivity.
  - left. reflexivity.
Defined.

(** X15. A loader that is callable but has no [__code__] (a class, a
    callable object) is refused: once the checks before it have passed,
    the handler of [AttributeError] reports the missing attribute. *)
Theorem loader_without_code_is_refused capsule n loader e :
  getattr capsule "name" = Ok n ->
  check_name capsule = Ok tt ->
  check_class_attributes capsule = Ok tt ->
  check_unwanted_attributes capsule unwanted_attributes = Ok tt ->
  getattr capsule "backend_loader" = Ok loader ->
  getattr loader "__code__" = Raise e ->
  exists detail,
    _validate_capsule capsule
    = Raise (InvalidCapsuleError n
               ("The capsule did not describe the necessary attributes. "
                +:+ "Error: " +:+ detail)).
Proof.
  intros Hn H1 H2 H3 Hl He. eexists.
  pose proof (getattr_raise _ _ _ He) as ->.
  unfold _validate_capsule, validate_body. rewrite H1, H2, H3. cbn [rbind].
  unfold check_backend_loader, check_arg_names. rewrite Hl. cbn [rbind].
  rewrite He. cbn [rbind no_attribute is_InvalidCapsuleError is_AttributeError].
  rewrite (invalid_named _ _ _ Hn). reflexivity.
Qed.

Lemma loader_without_code_is_refused_witness :
  exists detail,
    _validate_capsule MoreSamples.class_loader_capsule
    = Raise (InvalidCapsuleError (PyStr "detector_person")
               ("The capsule did not describe the necessary attributes. "
                +:+ "Error: " +:+ detail)).
Proof.
  apply (loader_without_code_is_refused MoreSamples.class_loader_capsule
           (PyStr "detector_person") (PyClass Sample.Backend)
           (no_attribute (PyClass Sample.Backend) "__code__"));
    reflexivity.
Defined.

(** ** What the load returns, and what it lets through *)

Lemma check_compatibility_ok_inv (capsule_name s : string) (v : Z * Z) :
  check_compatibility capsule_name s = Ok v ->
  parse_version s = Some v
  /\ fst v = MAJOR_COMPATIBLE_VERSION
  /\ 0 <= snd v <= MINOR_COMPATIBLE_VERSION.
Proof.
  intros Hc.
  destruct (semver_fullmatch s) as [[g1 g2]|] eqn:Hm.
  - destruct (gate_groups _ _ _ Hm)
      as [(a & b & Hp & Ha & Hb & _)|(_ & _ & Hr)];
      [|rewrite Hr in Hc; discriminate].
    destruct (Z.eq_dec a MAJOR_COMPATIBLE_VERSION) as [->|Hne].
    + destruct (Z_le_gt_dec b MINOR_COMPATIBLE_VERSION) as [Hle|Hgt].
      * rewrite (check_compatibility_accepts capsule_name _ _ Hp Hle) in Hc.
        injection Hc as <-. cbn [fst snd]. auto.
      * destruct (check_compatibility_minor_new capsule_name _ _ Hp Hgt)
          as [msg Hr]. congruence.
    + destruct (check_compatibility_major capsule_name _ _ _ Hp Hne)
        as [msg Hr]. congruence.
  - destruct (check_compatibility_unmatched capsule_name _ Hm) as [msg Hr].
    congruence.
Qed.

Section LoadOutcomes.

Context {R : Runtime}.

Lemma validate_or_close_returns new_capsule w c w' :
  validate_or_close new_capsule w = (Ok c, w') ->
  _validate_capsule new_capsule = Ok tt /\ c = new_capsule /\ w' = w.
Proof.
  unfold validate_or_close.
  destruct (_validate_capsule new_capsule) as [[]|e].
  - intros [= <- <-]. auto.
  - destruct (is_InvalidCapsuleError e).
    + unfold mbind', mraise.
      destruct (capsule_close new_capsule w) as [[u|e'] w0]; discriminate.
    + discriminate.
Qed.

(** X16. The load never returns a capsule that was not checked: a capsule
    it returns has passed the validation, and comes from an archive whose
    compatibility version has major 0 and a minor from 0 to 2. *)
Theorem returned_capsule_is_validated data source_path key inference_mode
    w c w' :
  load_capsule_from_bytes data source_path key inference_mode w
  = (Ok c, w') ->
  _validate_capsule c = Ok tt
  /\ exists o minor,
       open_capsule (capsule_module_name data) data key = Ok o
       /\ parse_version (compatibility_version o)
          = Some (MAJOR_COMPATIBLE_VERSION, minor)
       /\ 0 <= minor <= MINOR_COMPATIBLE_VERSION.
Proof.
  unfold load_capsule_from_bytes, mbind' at 1, mlift.
  destruct (open_capsule (capsule_module_name data) data key) as [o|] eqn:Ho;
    [|discriminate].
  unfold mbind' at 1.
  destruct (check_compatibility _ _) as [[a b]|] eqn:Hv; [|discriminate].
  destruct (check_compatibility_ok_inv _ _ _ Hv) as (Hp & Ha & Hb).
  cbn [fst snd] in Ha, Hb. subst a.
  unfold load_after_gate, mbind' at 1.
  destruct (execute_capsule_code _ _ _ _ w) as [[m|] w1]; [|discriminate].
  unfold mbind' at 1.
  destruct (instantiate m (loaded_files o) inference_mode w1)
    as [[c0|] w2]; [|discriminate].
  intros Hret. destruct (validate_or_close_returns _ _ _ _ Hret)
    as (Hval & -> & _).
  split; [exact Hval|]. exists o, b. auto.
Qed.

(** X17. When every stage succeeds the load returns the very object the
    constructor built, in the world the constructor left: [close] is not
    called on a capsule that passed. *)
Theorem load_returns_constructed_capsule data source_path key inference_mode
    w o v capsule_module w1 build new_capsule w2 :
  open_capsule (capsule_module_name data) data key = Ok o ->
  check_compatibility (capsule_module_name data) (compatibility_version o)
  = Ok v ->
  execute_capsule_code (capsule_module_name data) (capsule_file o)
    (default_source_path data source_path) (code o) w
  = (Ok capsule_module, w1) ->
  module_Capsule capsule_module = Some build ->
  build (loaded_files o) inference_mode w1 = (Ok new_capsule, w2) ->
  _validate_capsule new_capsule = Ok tt ->
  load_capsule_from_bytes data source_path key inference_mode w
  = (Ok new_capsule, w2).
Proof.
  intros Ho Hv He Hb Hbuild Hval.
  rewrite (load_unfold _ _ _ _ _ _ Ho), Hv.
  rewrite (load_after_gate_unfold _ _ _ _ _ _ _ _ He Hb).
  unfold mbind'. rewrite Hbuild. unfold validate_or_close.
  now rewrite Hval.
Qed.

(** X18. A module that defines no [Capsule] makes the load raise
    [AttributeError], and an exception of the [Capsule] constructor is
    raised as it is; in both cases the world is left as the constructor, or
    the execution of the code, left it. *)
Theorem construction_failure_is_raw data source_path key inference_mode
    w o v capsule_module w1 :
  open_capsule (capsule_module_name data) data key = Ok o ->
  check_compatibility (capsule_module_name data) (compatibility_version o)
  = Ok v ->
  execute_capsule_code (capsule_module_name data) (capsule_file o)
    (default_source_path data source_path) (code o) w
  = (Ok capsule_module, w1) ->
  (module_Capsule capsule_module = None ->
   exists msg,
     load_capsule_from_bytes data source_path key inference_mode w
     = (Raise (AttributeError msg), w1))
  /\ (forall build e w2,
        module_Capsule capsule_module = Some build ->
        build (loaded_files o) inference_mode w1 = (Raise e, w2) ->
        load_capsule_from_bytes data source_path key inference_mode w
        = (Raise e, w2)).
Proof.
  intros Ho Hv He. split.
  - intros Hnone. rewrite (load_unfold _ _ _ _ _ _ Ho), Hv.
    unfold load_after_gate, mbind' at 1. rewrite He.
    unfold mbind' at 1, instantiate. rewrite Hnone.
    unfold mraise. eauto.
  - intros build e w2 Hb Hbuild.
    rewrite (load_unfold _ _ _ _ _ _ Ho), Hv.
    rewrite (load_after_gate_unfold _ _ _ _ _ _ _ _ He Hb).
    unfold mbind'. now rewrite Hbuild.
Qed.

(** X19. [close] is called for [InvalidCapsuleError] only: a constructed
    object whose [name] cannot be read makes the validation, and so the
    load, raise [AttributeError], and the world is the one the constructor
    left, with [close] not called. *)
Theorem nameless_capsule_is_not_closed data source_path key inference_mode
    w o v capsule_module w1 build new_capsule w2 e :
  open_capsule (capsule_module_name data) data key = Ok o ->
  check_compatibility (capsule_module_name data) (compatibility_version o)
  = Ok v ->
  execute_capsule_code (capsule_module_name data) (capsule_file o)
    (default_source_path data source_path) (code o) w
  = (Ok capsule_module, w1) ->
  module_Capsule capsule_module = Some build ->
  build (loaded_files o) inference_mode w1 = (Ok new_capsule, w2) ->
  getattr new_capsule "name" = Raise e ->
  exists msg,
    load_capsule_from_bytes data source_path key inference_mode w
    = (Raise (AttributeError msg), w2).
Proof.
  intros Ho Hv He Hb Hbuild Hn.
  rewrite (load_unfold _ _ _ _ _ _ Ho), Hv.
  rewrite (load_after_gate_unfold _ _ _ _ _ _ _ _ He Hb).
  unfold mbind'. rewrite Hbuild. unfold validate_or_close.
  rewrite (validate_nameless _ _ Hn).
  cbn [no_attribute is_InvalidCapsuleError]. unfold mraise. eauto.
Qed.

End LoadOutcomes.

Lemma returned_capsule_is_validated_witness :
  _validate_capsule Sample.capsule = Ok tt
  /\ exists o minor,
       @open_capsule (Sample.good_host "0.2")
          (@capsule_module_name (Sample.good_host "0.2") []) [] None
       = Ok o
       /\ parse_version (compatibility_version o)
          = Some (MAJOR_COMPATIBLE_VERSION, minor)
       /\ 0 <= minor <= MINOR_COMPATIBLE_VERSION.
Proof.
  apply (@returned_capsule_is_validated (Sample.good_host "0.2")
           [] None None true Sample.world0 Sample.capsule
           {| sys_meta_path := sys_meta_path Sample.world0;
              resources := ["backend"] |}).
  reflexivity.
Defined.

Lemma load_returns_constructed_capsule_witness :
  @load_capsule_from_bytes (Sample.good_host "0.1") [] None None false
     Sample.world0
  = (Ok Sample.capsule, Sample.world0).
Proof.
  apply (@load_returns_constructed_capsule (Sample.good_host "0.1")
           [] None None false Sample.world0 (Sample.opened_as "0.1") (0, 1)
           (PyModule "capsule_e3b0c442" (Some Sample.construct))
           Sample.world0 Sample.construct);
    reflexivity.
Defined.

Lemma construction_failure_is_raw_witness :
  (exists msg,
     @load_capsule_from_bytes MoreSamples.empty_module_host [] None None true
       Sample.world0
     = (Raise (AttributeError msg), Sample.world0))
  /\ @load_capsule_from_bytes MoreSamples.failing_constructor_host
       [] None None true Sample.world0
     = (Raise (KeyError "detector.pb"), Sample.world0).
Proof.
  split.
  - exact (proj1
      (@construction_failure_is_raw MoreSamples.empty_module_host
         [] None None true Sample.world0 (Sample.opened_as "0.2") (0, 2)
         (PyModule "capsule_e3b0c442" None) Sample.world0
         eq_refl eq_refl eq_refl) eq_refl).
  - exact (proj2
      (@construction_failure_is_raw MoreSamples.failing_constructor_host
         [] None None true Sample.world0 (Sample.opened_as "0.2") (0, 2)
         (PyModule "capsule_e3b0c442" (Some MoreSamples.failing_constructor))
         Sample.world0 eq_refl eq_refl eq_refl)
      MoreSamples.failing_constructor (KeyError "detector.pb") Sample.world0
      eq_refl eq_refl).
Defined.

Lemma nameless_capsule_is_not_closed_witness :
  exists msg,
    @load_capsule_from_bytes (Sample.host_of Sample.bare_capsule)
      [] None None true Sample.world0
    = (Raise (AttributeError msg),
       {| sys_meta_path := sys_meta_path Sample.world0;
          resources := ["backend"] |}).
Proof.
  apply (@nameless_capsule_is_not_closed (Sample.host_of Sample.bare_capsule)
           [] None None true Sample.world0 (Sample.opened_as "0.2") (0, 2)
           (PyModule "capsule_e3b0c442"
              (Some (Sample.construct_of Sample.bare_capsule)))
           Sample.world0 (Sample.construct_of Sample.bare_capsule)
           Sample.bare_capsule
           {| sys_meta_path := sys_meta_path Sample.world0;
              resources := ["backend"] |}
           (no_attribute Sample.bare_capsule "name"));
    reflexivity.
Defined.

(** ** The resolver when [sys.meta_path] is empty *)

Section EmptyMetaPath.

Context {R : Runtime}.

(** X20. With an empty [sys.meta_path] there is no index 1 for [finally] to
    take off: once the gate has accepted, the load raises the [IndexError]
    of [pop(1)] whatever the capsule's code did, and the resolver is left
    on [sys.meta_path]. *)
Theorem empty_meta_path_breaks_the_load data source_path key inference_mode
    w o v :
  sys_meta_path w = [] ->
  open_capsule (capsule_module_name data) data key = Ok o ->
  check_compatibility (capsule_module_name data) (compatibility_version o)
  = Ok v ->
  (forall c p n, keeps_meta_path (compile_exec c p n)) ->
  fst (load_capsule_from_bytes data source_path key inference_mode w)
  = Raise (IndexError "pop index out of range")
  /\ sys_meta_path
       (snd (load_capsule_from_bytes data source_path key inference_mode w))
     = [ZipFinder (capsule_file o) (default_source_path data source_path)
          (capsule_module_name data)].
Proof.
  intros Hw Ho Hv Hkeep.
  rewrite (load_unfold _ _ _ _ _ _ Ho), Hv.
  unfold load_after_gate, mbind' at 1.
  unfold execute_capsule_code, mbind', meta_path_insert, try_finally,
    try_except, meta_path_pop, mraise.
  rewrite Hw. cbn [list_insert_at take drop app].
  destruct (code o) as [c|].
  - match goal with
    | |- context [compile_exec c ?p ?n ?w0] =>
        pose proof (Hkeep c p n w0) as Hk;
        destruct (compile_exec c p n w0) as [r w1]
    end.
    cbn [snd sys_meta_path set_meta_path] in Hk.
    destruct r as [m|e]; [|destruct (is_Exception e)];
      rewrite Hk; cbn; auto.
  - cbn. auto.
Qed.

End EmptyMetaPath.

Lemma empty_meta_path_breaks_the_load_witness :
  fst (@load_capsule_from_bytes (Sample.good_host "0.2") [] None None true
         MoreSamples.bare_world)
  = Raise (IndexError "pop index out of range")
  /\ sys_meta_path
       (snd (@load_capsule_from_bytes (Sample.good_host "0.2") [] None None
               true MoreSamples.bare_world))
     = [ZipFinder Sample.files ["/"; "capsule_e3b0c442"] "capsule_e3b0c442"].
Proof.
  apply (@empty_meta_path_breaks_the_load (Sample.good_host "0.2")
           [] None None true MoreSamples.bare_world
           (Sample.opened_as "0.2") (0, 2));
    try reflexivity.
  intros c p n w0. reflexivity.
Defined.

(** ** Loading from a file *)

Section FromFile.

Context {R : Runtime} {F : FileSystem}.

(** X21. [load_capsule] raises the file system's exception when the file
    cannot be read, with nothing else done. Otherwise the capsule is named
    after the bytes read, a failure up to the version gate is the one
    [load_capsule_from_bytes] has for these bytes whatever the path is, and
    past the gate the load goes on under the path [parent/stem] made
    absolute, never under the placeholder. *)
Theorem load_capsule_outcome path key inference_mode w :
  (forall e, read_bytes path = Raise e ->
             load_capsule path key inference_mode w = (Raise e, w))
  /\ (forall data, read_bytes path = Ok data ->
        (forall e,
           open_capsule (capsule_module_name data) data key = Raise e ->
           load_capsule path key inference_mode w = (Raise e, w))
        /\ (forall o e,
              open_capsule (capsule_module_name data) data key = Ok o ->
              check_compatibility (capsule_module_name data)
                (compatibility_version o) = Raise e ->
              load_capsule path key inference_mode w = (Raise e, w))
        /\ (forall o v,
              open_capsule (capsule_module_name data) data key = Ok o ->
              check_compatibility (capsule_module_name data)
                (compatibility_version o) = Ok v ->
              load_capsule path key inference_mode w
              = load_after_gate (capsule_module_name data)
                  (source_path_of path) o inference_mode w)).
Proof.
  unfold load_capsule. unfold mbind', mlift. split.
  - intros e ->. reflexivity.
  - intros data ->. cbv beta iota zeta. split; [|split].
    + intros e He. now apply load_open_raises.
    + intros o e Ho He. now rewrite (load_unfold _ _ _ _ _ _ Ho), He.
    + intros o v Ho Hv. now rewrite (load_unfold _ _ _ _ _ _ Ho), Hv.
Qed.

End FromFile.

Lemma load_capsule_outcome_witness :
  @load_capsule (Sample.good_host "1.0") MoreSamples.disk
     ["capsules"; "missing.cap"] None true Sample.world0
  = (Raise (OtherException "FileNotFoundError" "No such file or directory"),
     Sample.world0)
  /\ @load_capsule (Sample.good_host "0.2") MoreSamples.disk
       ["capsules"; "detector.cap"] None true Sample.world0
     = @load_after_gate (Sample.good_host "0.2") "capsule_e3b0c442"
         ["/"; "capsules"; "detector"] (Sample.opened_as "0.2") true
         Sample.world0.
Proof.
  split.
  - exact (proj1
      (@load_capsule_outcome (Sample.good_host "1.0") MoreSamples.disk
         ["capsules"; "missing.cap"] None true Sample.world0) _ eq_refl).
  - exact (proj2 (proj2 (proj2
      (@load_capsule_outcome (Sample.good_host "0.2") MoreSamples.disk
         ["capsules"; "detector.cap"] None true Sample.world0) [] eq_refl))
      (Sample.opened_as "0.2") (0, 2) eq_refl eq_refl).
Defined.

(** ** Which entry is loaded under a name *)

Lemma zip_read_absent (capsule_file : archive) (name : string) :
  ~ In name (namelist capsule_file) -> zip_read capsule_file name = None.
Proof.
  intros Hn. apply zip_read_not_in_names.
  destruct (in_names name (namelist capsule_file)) eqn:Hi; [|reflexivity].
  exfalso. apply Hn. unfold in_names in Hi.
  apply existsb_exists in Hi as (x & Hx & ->%String.eqb_eq). exact Hx.
Qed.

Lemma zip_read_last (front back : archive) (name : string) (b : bytes) :
  ~ In name (namelist back) ->
  zip_read (front ++ (name, b) :: back) name = Some b.
Proof.
  intros Hn. induction front as [|[n c] front IH]; simpl.
  - rewrite (zip_read_absent back name Hn). now rewrite String.eqb_refl.
  - now rewrite IH.
Qed.

Section LastEntry.

Context {R : Runtime}.

(** X22. Of the entries of one name, the archive's last one is the one that
    counts: it is what [loaded_files] holds under that name when the name
    is not the code file's, and it is the code when it is. In an archive
    without repeated names every entry but the code entry is therefore in
    [loaded_files] with its own bytes. *)
Theorem last_entry_of_a_name_is_loaded capsule_name data key o
    (front back : archive) (name : string) (b : bytes) :
  open_capsule capsule_name data key = Ok o ->
  capsule_file o = front ++ (name, b) :: back ->
  ~ In name (namelist back) ->
  (name <> CAPSULE_FILE_NAME -> loaded_files o !! name = Some b)
  /\ (name = CAPSULE_FILE_NAME -> code o = Some b).
Proof.
  intros Ho Hsplit Hlast.
  destruct (open_capsule_inv _ _ _ _ Ho) as (Hc & _ & Hr & _).
  destruct (read_entries_namelist (capsule_file o) Hc) as (l & Hr' & Hl).
  rewrite Hr in Hr'. injection Hr' as Hcode Hloaded. subst l.
  pose proof (zip_read_last front back name b Hlast) as Hz.
  rewrite <- Hsplit in Hz. split.
  - intros Hne. rewrite Hl. unfold all_but_code.
    destruct (String.eqb_spec name CAPSULE_FILE_NAME); [contradiction|].
    exact Hz.
  - intros ->. now rewrite Hcode.
Qed.

End LastEntry.

Lemma last_entry_of_a_name_is_loaded_witness :
  zip_read MoreSamples.files_with_repeat "detector.pb"
  = Some Sample.model_bytes
  /\ loaded_files MoreSamples.opened_with_repeat !! "detector.pb"
     = Some Sample.model_bytes.
Proof.
  split; [reflexivity|].
  refine (proj1
    (@last_entry_of_a_name_is_loaded
       (MoreSamples.host_with_files MoreSamples.files_with_repeat)
       "capsule_e3b0c442" [] None MoreSamples.opened_with_repeat
       [ ("capsule.py", Sample.code_bytes);
         ("detector.pb", MoreSamples.stale_model_bytes);
         ("meta.conf", Sample.meta_bytes) ]
       [] "detector.pb" Sample.model_bytes eq_refl eq_refl _) _).
  - intros [].
  - discriminate.
Defined.

(** ** The encoder's option, both ways *)

(** X23. For a capsule that passes every other check and whose [options]
    are a dictionary, the validation accepts exactly when
    [capability.encoded] is not truthy or the options have the key
    [recognition_threshold]. *)
Theorem threshold_accepted_iff capsule capability encoded items :
  getattr capsule "capability" = Ok capability ->
  getattr capability "encoded" = Ok encoded ->
  getattr capsule "options" = Ok (PyDict items) ->
  valid_apart_from_threshold capsule ->
  _validate_capsule capsule = Ok tt
  <-> truthy encoded = false
      \/ existsb (String.eqb "recognition_threshold") (map fst items) = true.
Proof.
  intros Hc He Ho (H1 & H2 & H3 & H4 & H5 & H6).
  rewrite validate_ok_iff, validate_body_ok.
  assert (Hiff : check_encoder_threshold capsule = Ok tt
                 <-> truthy encoded = false
                     \/ existsb (String.eqb "recognition_threshold")
                          (map fst items) = true).
  { unfold check_encoder_threshold.
    rewrite Hc. cbn [rbind]. rewrite He. cbn [rbind].
    destruct (truthy encoded); [|intuition].
    rewrite Ho. cbn [rbind dict_keys].
    destruct (existsb _ (map fst items)); cbn [negb]; [intuition|].
    split; [|intros [|]; discriminate].
    intros H. destruct (invalid_not_ok _ _ _ H). }
  rewrite <- Hiff. tauto.
Qed.

Lemma threshold_accepted_iff_witness :
  _validate_capsule Sample.capsule = Ok tt
  <-> truthy (PyBool false) = false
      \/ existsb (String.eqb "recognition_threshold")
           (map fst (@nil (string * pyval))) = true.
Proof.
  apply (threshold_accepted_iff Sample.capsule (Sample.capability false)
           (PyBool false) []).
  - reflexivity.
  - reflexivity.
  - reflexivity.
  - repeat split; reflexivity.
Defined.

(** ** The lookups in [meta.conf] *)

Lemma split_percent_rest (s before rest : string) :
  split_percent s = (before, Some rest) ->
  (String.length rest <= String.length s)%nat.
Proof.
  revert before. induction s as [|c s IH]; simpl; intros before;
    [discriminate|].
  destruct (Ascii.eqb c "%").
  - intros [= <- <-]. reflexivity.
  - destruct (split_percent s) as [b r]. intros [= <- ->].
    specialize (IH _ eq_refl). lia.
Qed.

Lemma split_percent_plain (s : string) :
  string_forall (fun c => negb (Ascii.eqb c "%")) s = true ->
  split_percent s = (s, None).
Proof.
  induction s as [|c s IH]; simpl; [reflexivity|].
  intros [Hc Hs]%andb_true_iff. apply negb_true_iff in Hc. rewrite Hc.
  now rewrite (IH Hs).
Qed.

Lemma split_percent_first (before rest : string) :
  string_forall (fun c => negb (Ascii.eqb c "%")) before = true ->
  split_percent (before +:+ String "%" rest)
  = (before, Some (String "%" rest)).
Proof.
  induction before as [|c before IH]; simpl; [reflexivity|].
  intros [Hc Hs]%andb_true_iff. apply negb_true_iff in Hc. rewrite Hc.
  now rewrite (IH Hs).
Qed.

Lemma until_paren_rest (s name rest : string) :
  until_paren s = Some (name, rest) ->
  (String.length rest < String.length s)%nat.
Proof.
  revert name. induction s as [|c s IH]; simpl; intros name; [discriminate|].
  destruct (Ascii.eqb c ")").
  - intros [= <- <-]. lia.
  - destruct (until_paren s) as [[n r]|]; [|discriminate].
    intros [= <- <-]. specialize (IH _ eq_refl). lia.
Qed.

Lemma keycre_match_rest (rest name rest' : string) :
  keycre_match rest = Some (name, rest') ->
  (String.length rest' < String.length rest)%nat.
Proof.
  unfold keycre_match.
  destruct rest as [|c0 [|c1 r]]; try discriminate.
  destruct (Ascii.eqb c0 "%" && Ascii.eqb c1 "("); [|discriminate].
  destruct (until_paren r) as [[n [|c2 r']]|] eqn:Hu; try discriminate.
  destruct (nonempty n && Ascii.eqb c2 "s"); [|discriminate].
  intros [= <- <-]. apply until_paren_rest in Hu. simpl in *. lia.
Qed.

Section MetaOutcomes.

Context {R : Runtime}.

(** The bound on the turns of the loop cuts nothing off: any bound from the
    length of [rest] on gives the same answer. *)
Lemma interpolate_loop_fuel deeper map opt section rawval (n m : nat)
    (rest accum : string) :
  (String.length rest <= n)%nat -> (String.length rest <= m)%nat ->
  interpolate_loop deeper map opt section rawval n rest accum
  = interpolate_loop deeper map opt section rawval m rest accum.
Proof.
  revert m rest accum. induction n as [|n IH]; intros m rest accum Hn Hm.
  - destruct rest; [destruct m; reflexivity|simpl in Hn; lia].
  - destruct rest as [|c0 rest0]; [destruct m; reflexivity|].
    destruct m as [|m]; [simpl in Hm; lia|].
    cbn [interpolate_loop].
    destruct (split_percent (String c0 rest0)) as [before [r|]] eqn:Hs;
      [|reflexivity].
    apply split_percent_rest in Hs.
    destruct r as [|c1 [|c2 r2]]; try reflexivity.
    cbn [String.length] in Hs, Hn, Hm.
    destruct (Ascii.eqb c2 "%"); [apply IH; lia|].
    destruct (Ascii.eqb c2 "("); [|reflexivity].
    destruct (keycre_match (String c1 (String c2 r2))) as [[name rest']|]
      eqn:Hk; [|reflexivity].
    apply keycre_match_rest in Hk. cbn [String.length] in Hk.
    destruct (map (str_lower name)) as [v|]; [|reflexivity].
    destruct (has_percent v).
    + destruct (deeper v (accum +:+ before)) as [acc|e]; cbn [rbind];
        [apply IH; lia|reflexivity].
    + apply IH; lia.
Qed.

(** A stored value without a percent sign is read as it is. *)
Lemma before_get_plain map opt section (value : string) :
  string_forall (fun c => negb (Ascii.eqb c "%")) value = true ->
  before_get map opt section value = Ok value.
Proof.
  intros Hv. unfold before_get, MAX_INTERPOLATION_DEPTH.
  cbn [_interpolate_some].
  destruct value as [|c value]; [reflexivity|].
  cbn [String.length interpolate_loop].
  now rewrite (split_percent_plain _ Hv).
Qed.

(** A stored value whose first percent sign is followed by nothing, or by a
    character other than [%] and [(], cannot be read. *)
Lemma before_get_stray_percent map opt section (before tail : string) :
  string_forall (fun c => negb (Ascii.eqb c "%")) before = true ->
  match tail with
  | EmptyString => True
  | String c _ => c <> "%"%char /\ c <> "("%char
  end ->
  exists msg,
    before_get map opt section (before +:+ String "%" tail)
    = Raise (InterpolationSyntaxError msg).
Proof.
  intros Hb Ht. unfold before_get, MAX_INTERPOLATION_DEPTH.
  cbn [_interpolate_some].
  destruct (before +:+ String "%" tail) as [|c0 value] eqn:Hv.
  { destruct before; discriminate Hv. }
  cbn [String.length interpolate_loop]. rewrite <- Hv.
  rewrite (split_percent_first _ _ Hb).
  destruct tail as [|c tail]; [eauto|].
  destruct Ht as [H1 H2].
  apply Ascii.eqb_neq in H1, H2. rewrite H1, H2. eauto.
Qed.

(** X24. Once the archive is read and [meta.conf] decoded, the load raises
    the INI parser's exception as it is; [KeyError] when the parser met no
    [about] section, or when neither [about] nor [DEFAULT] has
    [api_compatibility_version]; and the exception of the interpolation
    when the stored value cannot be expanded, as when its first percent
    sign is followed by neither [%] nor [(]; the process is untouched in
    each case. Otherwise the value stored under the key, in [about] or else
    in [DEFAULT], is expanded and handed to the gate, unchanged when it has
    no percent sign. *)
Theorem meta_descriptor_outcomes data source_path key inference_mode w
    data' af code_bytes (loaded : gmap string bytes) meta_bytes meta_text :
  match key with Some k => decrypt k data | None => Ok data end = Ok data' ->
  ZipFile data' = Ok af ->
  in_names CAPSULE_FILE_NAME (namelist af) = true ->
  in_names META_FILE_NAME (namelist af) = true ->
  read_entries af (namelist af) None ∅ = Ok (code_bytes, loaded) ->
  loaded !! META_FILE_NAME = Some meta_bytes ->
  decode_utf8 meta_bytes = Ok meta_text ->
  (forall e,
     read_string meta_text = Raise e ->
     load_capsule_from_bytes data source_path key inference_mode w
     = (Raise e, w))
  /\ (forall meta_conf : config,
        read_string meta_text = Ok meta_conf ->
        _sections meta_conf !! "about" = None ->
        load_capsule_from_bytes data source_path key inference_mode w
        = (Raise (KeyError "about"), w))
  /\ (forall (meta_conf : config) (about : gmap string string),
        read_string meta_text = Ok meta_conf ->
        _sections meta_conf !! "about" = Some about ->
        about !! "api_compatibility_version" = None ->
        _defaults meta_conf !! "api_compatibility_version" = None ->
        load_capsule_from_bytes data source_path key inference_mode w
        = (Raise (KeyError "api_compatibility_version"), w))
  /\ (forall (meta_conf : config) (about : gmap string string) value,
        read_string meta_text = Ok meta_conf ->
        _sections meta_conf !! "about" = Some about ->
        about !! "api_compatibility_version" = Some value
        \/ (about !! "api_compatibility_version" = None
            /\ _defaults meta_conf !! "api_compatibility_version"
               = Some value) ->
        (string_forall (fun c => negb (Ascii.eqb c "%")) value = true ->
         open_capsule (capsule_module_name data) data key
         = Ok (Opened af code_bytes loaded value))
        /\ (forall before tail,
              value = before +:+ String "%" tail ->
              string_forall (fun c => negb (Ascii.eqb c "%")) before = true ->
              match tail with
              | EmptyString => True
              | String c _ => c <> "%"%char /\ c <> "("%char
              end ->
              exists msg,
                load_capsule_from_bytes data source_path key inference_mode w
                = (Raise (InterpolationSyntaxError msg), w))
        /\ match before_get (chain_map about (_defaults meta_conf))
                   "api_compatibility_version" "about" value with
           | Ok version =>
               open_capsule (capsule_module_name data) data key
               = Ok (Opened af code_bytes loaded version)
           | Raise e =>
               load_capsule_from_bytes data source_path key inference_mode w
               = (Raise e, w)
           end).
Proof.
  intros Hk Hz Hc Hm Hr Hl Hd.
  pose proof (meta_lookup_unprotected (capsule_module_name data) data key
                data' af code_bytes loaded meta_bytes meta_text
                Hk Hz Hc Hm Hr Hl Hd) as Hopen.
  split; [|split; [|split]].
  - intros e He. apply load_open_raises. now rewrite Hopen, He.
  - intros meta_conf Hp Ha. apply load_open_raises.
    now rewrite Hopen, Hp, Ha.
  - intros meta_conf about Hp Ha Hv Hdef. apply load_open_raises.
    rewrite Hopen, Hp, Ha. unfold section_getitem, chain_map.
    now rewrite Hv, Hdef.
  - intros meta_conf about value Hp Ha Hv.
    assert (Hmap : chain_map about (_defaults meta_conf)
                     "api_compatibility_version" = Some value).
    { unfold chain_map. destruct Hv as [Hv|[Hv Hdef]]; now rewrite Hv. }
    assert (Hget : section_getitem meta_conf "about" about
                     "api_compatibility_version"
                   = before_get (chain_map about (_defaults meta_conf))
                       "api_compatibility_version" "about" value).
    { unfold section_getitem. now rewrite Hmap. }
    rewrite Hp, Ha, Hget in Hopen.
    split; [|split].
    + intros Hplain. rewrite Hopen.
      now rewrite (before_get_plain _ _ _ _ Hplain).
    + intros before tail -> Hb Ht.
      destruct (before_get_stray_percent
                  (chain_map about (_defaults meta_conf))
                  "api_compatibility_version" "about" before tail Hb Ht)
        as [msg Hmsg].
      exists msg. apply load_open_raises. now rewrite Hopen, Hmsg.
    + destruct (before_get _ _ _ value) as [version|e]; [exact Hopen|].
      apply load_open_raises. exact Hopen.
Qed.

End MetaOutcomes.

Lemma meta_descriptor_outcomes_witness :
  @open_capsule MoreSamples.default_version_host
     (@capsule_module_name MoreSamples.default_version_host []) [] None
  = Ok (Sample.opened_as "0.2").
Proof.
  refine (proj1 (proj2 (proj2 (proj2
    (@meta_descriptor_outcomes MoreSamples.default_version_host [] None None
       true Sample.world0 [] Sample.files (Some Sample.code_bytes)
       (loaded_files (Sample.opened_as "0.2")) Sample.meta_bytes
       (string_of_list_byte Sample.meta_bytes)
       eq_refl eq_refl eq_refl eq_refl eq_refl eq_refl eq_refl)))
    MoreSamples.default_meta {[ "author" := "someone" ]} "0.2"
    eq_refl eq_refl (or_intror (conj eq_refl eq_refl))) eq_refl).
Defined.

(** ** Where an exception other than the two reported kinds comes from *)


Section RawExceptions.

Context {R : Runtime}.


End RawExceptions.

